(** * DailyTimeLimit: activity accounting and alerting

    A shallow embedding of [dailytimespend.py] (escalating alerts, periodic
    log) and [dailytimespend1.py] (immediate stop) and the properties of the
    activity counter, the alert policy, the parser of the time limit, the
    logger and the progress renderer.

    Conventions of the embedding.
    - A [datetime] is an integer number of microseconds on the wall clock, a
      [timedelta] an integer number of microseconds (the resolution of both
      Python types).  Arithmetic on them is exact; the range checks of the
      Python types are modelled where user input reaches them (the
      [timedelta] constructor).
    - [td.total_seconds()] is the quotient of that integer by 10^6, computed
      by Python as a correctly rounded binary64 division of two integers.
      The three comparisons the program makes on it ([<= 1.0], [> 0.1],
      [<= 0]) are therefore decided exactly by the integer comparisons with
      1000000, 100000 and 0, and the quotient is zero exactly when the
      integer is.  [int(td.total_seconds())] is the truncated integer
      quotient for every duration below 2^33 seconds.
    - The world outside the process (clock, audio utility, log file) is an
      oracle indexed by the number of calls made so far; every function of
      the program that touches it threads the call counters and the list of
      effects it has produced.  Writing to the terminal does not fail.
    - The callbacks of the hook manager run one at a time (they hold
      [activity_lock]); one pass through the loop of the renderer thread is
      taken as a single step between two callbacks. *)

From Stdlib Require Import ZArith List String Ascii Bool Lia.
Import ListNotations.
Open Scope Z_scope.

(** ** Python values and exceptions *)

Module Py.

Inductive exn : Type :=
| ValueError (msg : string)
| OverflowError
| ZeroDivisionError
| FileNotFoundError
| OSError.

Inductive res (A : Type) : Type :=
| Ret (a : A)
| Raise (e : exn).
Arguments Ret {A} a.
Arguments Raise {A} e.

Definition datetime := Z.
Definition timedelta := Z.

Definition second : timedelta := 1000000.

(** [timedelta(hours=h, minutes=m, seconds=s)]: the constructor normalises
    to days, seconds and microseconds and refuses more than 999999999 days. *)
Definition timedelta_new (hours minutes seconds : Z) : res timedelta :=
  let us := (hours * 3600 + minutes * 60 + seconds) * second in
  if 999999999 <? Z.abs (us / (86400 * second))
  then Raise OverflowError
  else Ret us.

(** [str * n]: a negative count gives the empty string. *)
Definition str_mul (c : ascii) (n : Z) : string :=
  string_of_list_ascii (repeat c (Z.to_nat n)).

(** [\d] on the characters '0' to '9'; strings are sequences of 8-bit
    characters here, so the decimal digits of other scripts are left out. *)
Definition is_digit (c : ascii) : bool :=
  let n := nat_of_ascii c in (48 <=? n)%nat && (n <=? 57)%nat.

Definition digit_value (c : ascii) : Z := Z.of_nat (nat_of_ascii c) - 48.

(** [int(s)] on a string: decimal digits only are needed here; anything
    else is Python's "invalid literal".  The interpreter's cap on the number
    of digits of the conversion (4300 by default in the versions that have
    it) is not modelled: results about numbers are stated within it. *)
Definition int_of_str (s : list ascii) : res Z :=
  match s with
  | [] => Raise (ValueError "invalid literal for int() with base 10")
  | _ =>
    if forallb is_digit s
    then Ret (fold_left (fun acc c => 10 * acc + digit_value c) s 0)
    else Raise (ValueError "invalid literal for int() with base 10")
  end.

Definition digit_char (d : Z) : ascii := ascii_of_nat (Z.to_nat (48 + d)).

Fixpoint decimal_digits (fuel : nat) (n : Z) (acc : list ascii) : list ascii :=
  match fuel with
  | O => acc
  | S fuel' =>
    let acc' := digit_char (n mod 10) :: acc in
    if n / 10 =? 0 then acc' else decimal_digits fuel' (n / 10) acc'
  end.

(** [str(n)] of a non-negative integer. *)
Definition str_of_nonneg (n : Z) : list ascii :=
  decimal_digits (S (Z.to_nat (Z.log2 n))) n [].

(** [f"{n:02d}"]: sign first, then the digits zero-padded so that the whole
    field has at least two characters. *)
Definition format_02d (n : Z) : string :=
  if n <? 0
  then String "-" (string_of_list_ascii (str_of_nonneg (- n)))
  else
    let ds := str_of_nonneg n in
    string_of_list_ascii (repeat "0"%char (2 - List.length ds) ++ ds)%list.

(** [int(x)] of a float given as an exact quotient: truncation to zero. *)
Definition int_of_seconds (td : timedelta) : Z := Z.quot td second.

(** *** The fragment of [re] the program uses

    A backtracking matcher in continuation-passing style, greedy as [re]
    is: a quantifier first tries to match once more and falls back to the
    continuation when that fails. *)

Inductive regex : Type :=
| Lit (c : ascii)
| Digit                         (* \d *)
| Cat (r1 r2 : regex)
| Opt (r : regex)               (* r? *)
| Plus (r : regex)              (* r+ *)
| Group (n : nat) (r : regex).  (* capturing group number n *)

Definition captures := nat -> option (list ascii).
Definition no_captures : captures := fun _ => None.
Definition set_capture (n : nat) (v : list ascii) (c : captures) : captures :=
  fun k => if Nat.eqb k n then Some v else c k.

Fixpoint run_regex {R : Type} (r : regex) (s : list ascii) (caps : captures)
  (k : list ascii -> captures -> option R) {struct r} : option R :=
  match r with
  | Lit c =>
    match s with
    | c' :: s' => if Ascii.eqb c c' then k s' caps else None
    | [] => None
    end
  | Digit =>
    match s with
    | c' :: s' => if is_digit c' then k s' caps else None
    | [] => None
    end
  | Cat r1 r2 => run_regex r1 s caps (fun s' caps' => run_regex r2 s' caps' k)
  | Opt r' =>
    match run_regex r' s caps k with
    | Some x => Some x
    | None => k s caps
    end
  | Plus r' =>
    (fix loop (fuel : nat) (s : list ascii) (caps : captures) {struct fuel}
       : option R :=
       run_regex r' s caps (fun s' caps' =>
         match fuel with
         | O => k s' caps'
         | S fuel' =>
           match loop fuel' s' caps' with
           | Some x => Some x
           | None => k s' caps'
           end
         end)) (List.length s) s caps
  | Group n r' =>
    run_regex r' s caps (fun s' caps' =>
      k s' (set_capture n (firstn (List.length s - List.length s') s) caps'))
  end.

(** [re.match(pattern, string)]: anchored at the start, not at the end.
    The match object is represented by its groups. *)
Definition re_match (pattern : regex) (str : string) : option captures :=
  run_regex pattern (list_ascii_of_string str) no_captures
            (fun _ caps => Some caps).

End Py.

Import Py.

(** ** Code shared by the two programs: [parse_time_limit], [format_timedelta] *)

(** [(?:(\d+)h)?(?:(\d+)m)?(?:(\d+)s)?] *)
Definition unit_group (n : nat) (unit : ascii) : regex :=
  Opt (Cat (Group n (Plus Digit)) (Lit unit)).

Definition pattern : regex :=
  Cat (unit_group 1 "h") (Cat (unit_group 2 "m") (unit_group 3 "s")).

Definition invalid_time_format : string :=
  "Invalid time format. Use format like 1h10m01s".

(** [int(match.group(n) or 0)]: [None] and the empty string are falsy. *)
Definition int_group_or_0 (g : option (list ascii)) : res Z :=
  match g with
  | None | Some [] => Ret 0
  | Some ds => int_of_str ds
  end.

Definition parse_time_limit (time_str : string) : res timedelta :=
  match re_match pattern time_str with
  | None => Raise (ValueError invalid_time_format)
  | Some m =>
    match int_group_or_0 (m 1%nat) with
    | Raise e => Raise e
    | Ret hours =>
      match int_group_or_0 (m 2%nat) with
      | Raise e => Raise e
      | Ret minutes =>
        match int_group_or_0 (m 3%nat) with
        | Raise e => Raise e
        | Ret seconds => timedelta_new hours minutes seconds
        end
      end
    end
  end.

Definition format_timedelta (td : timedelta) : string :=
  let total_seconds := int_of_seconds td in
  let hours := total_seconds / 3600 in
  let minutes := (total_seconds mod 3600) / 60 in
  let seconds := total_seconds mod 60 in
  (format_02d hours ++ ":" ++ format_02d minutes ++ ":" ++ format_02d seconds)%string.


(** ** The world and the effects of the program *)

(** [subprocess.run([...])] without [check=True]: once the executable has
    been started its exit status is ignored. *)
Inductive spawn_outcome : Type :=
| Spawned
| ExecutableNotFound      (* FileNotFoundError *)
| SpawnFails.             (* any other OSError, e.g. PermissionError *)

(** [with open(log_file, 'a') as f: f.write(...)] *)
Inductive file_outcome : Type :=
| Written
| OpenFails               (* OSError from open *)
| WriteFails.             (* OSError from write *)

Record World : Type := mkWorld {
  clock : nat -> datetime;          (* n-th call of datetime.now() *)
  paplay : nat -> spawn_outcome;    (* n-th launch of the audio utility *)
  log_file : nat -> file_outcome    (* n-th append to the log file *)
}.

(** [a / b] on floats given as exact quotients of microseconds. *)
Record ratio : Type := mkRatio { num : Z; den : Z }.

Definition truediv (a b : Z) : res ratio :=
  if b =? 0 then Raise ZeroDivisionError else Ret (mkRatio a b).

(** The record of [dailytimespend.py]'s [log_activity]; every field is one
    interpolation of the f-string.  [log_rate] is the quotient that is
    multiplied by 100 and printed with one decimal. *)
Record log_record : Type := mkLog {
  log_time : datetime;
  log_event : string;
  log_session_duration : string;
  log_active : string;
  log_limit : string;
  log_remaining : string;
  log_rate : ratio;
  log_alerts : Z * Z;
  log_status : string
}.

(** The line of [draw_progress_bar]. *)
Record progress_line : Type := mkLine {
  line_bar : string;
  line_indicator : string;
  line_elapsed : string;
  line_total : string;
  line_remaining : string;
  line_alert_info : option (Z * Z)
}.

Inductive message : Type :=
| Starting (limit : timedelta)
| LoggingTo
| Legend
| AlertTimes (n : Z)
| LogEvery (secs : Z)
| LimitReached (limit : timedelta)
| LimitReachedAlerts (limit : timedelta)
| ErrorMsg (e : exn).

Inductive effect : Type :=
| PlaySound                                   (* paplay was run *)
| Bell                                        (* print('\a') *)
| LogAppend (r : log_record)                  (* dailytimespend.py *)
| LogActive (now : datetime) (t : timedelta)  (* dailytimespend1.py *)
| Print (m : message)
| Progress (l : progress_line)
| Sleep
| ThreadStart
| HookStart
| HookCancel.

(** The running process: the monitor object, how often each oracle has been
    consulted, and the effects produced so far, oldest first. *)
Record Sys (Mon : Type) : Type := mkSys {
  mon : Mon;
  ticks : nat;
  spawns : nat;
  appends : nat;
  out : list effect
}.
Arguments mkSys {Mon}.
Arguments mon {Mon}.
Arguments ticks {Mon}.
Arguments spawns {Mon}.
Arguments appends {Mon}.
Arguments out {Mon}.

(** *** State and exception monad *)

Definition M (Mon A : Type) : Type := World -> Sys Mon -> res A * Sys Mon.

Definition ret {Mon A} (a : A) : M Mon A := fun _ s => (Ret a, s).

Definition bind {Mon A B} (c : M Mon A) (k : A -> M Mon B) : M Mon B :=
  fun w s =>
    match c w s with
    | (Ret a, s') => k a w s'
    | (Raise e, s') => (Raise e, s')
    end.

Declare Scope monad_scope.
Delimit Scope monad_scope with monad.
Notation "x <- c ;; k" := (bind c (fun x => k))
  (at level 61, c at next level, right associativity) : monad_scope.
Notation "c ;; k" := (bind c (fun _ => k))
  (at level 61, right associativity) : monad_scope.
Open Scope monad_scope.

Definition raise {Mon A} (e : exn) : M Mon A := fun _ s => (Raise e, s).

Definition lift_res {Mon A} (r : res A) : M Mon A := fun _ s => (r, s).

Definition get {Mon} : M Mon Mon := fun _ s => (Ret (mon s), s).

Definition modify {Mon} (f : Mon -> Mon) : M Mon unit :=
  fun _ s => (Ret tt, mkSys (f (mon s)) (ticks s) (spawns s) (appends s) (out s)).

Definition emit {Mon} (e : effect) : M Mon unit :=
  fun _ s => (Ret tt, mkSys (mon s) (ticks s) (spawns s) (appends s) (out s ++ [e])).

Definition when {Mon} (b : bool) (c : M Mon unit) : M Mon unit :=
  if b then c else ret tt.

(** [datetime.now()] *)
Definition datetime_now {Mon} : M Mon datetime :=
  fun w s => (Ret (clock w (ticks s)),
              mkSys (mon s) (S (ticks s)) (spawns s) (appends s) (out s)).

(** [subprocess.run(['paplay', '/usr/share/sounds/.../complete.oga'])] *)
Definition subprocess_run_paplay {Mon} : M Mon unit :=
  fun w s =>
    let s' := mkSys (mon s) (ticks s) (S (spawns s)) (appends s) (out s) in
    match paplay w (spawns s) with
    | Spawned => (Ret tt, mkSys (mon s) (ticks s) (S (spawns s)) (appends s)
                                (out s ++ [PlaySound]))
    | ExecutableNotFound => (Raise FileNotFoundError, s')
    | SpawnFails => (Raise OSError, s')
    end.

(** [try: body  except FileNotFoundError: handler] *)
Definition try_except_FileNotFoundError {Mon}
  (body handler : M Mon unit) : M Mon unit :=
  fun w s =>
    match body w s with
    | (Raise FileNotFoundError, s') => handler w s'
    | r => r
    end.

(** [with open(self.log_file, 'a') as f: f.write(<text>)], where the text is
    computed by [text] after the file has been opened and produces the effect
    [e] when it reaches the file. *)
Definition append_to_log {Mon} (text : M Mon effect) : M Mon unit :=
  fun w s =>
    let s' := mkSys (mon s) (ticks s) (spawns s) (S (appends s)) (out s) in
    match log_file w (appends s) with
    | OpenFails => (Raise OSError, s')
    | WriteFails =>
      match text w s' with
      | (Ret _, s'') => (Raise OSError, s'')
      | (Raise e, s'') => (Raise e, s'')
      end
    | Written => (e <- text ;; emit e) w s'
    end.

(** [play_alert], the same in both programs. *)
Definition play_alert {Mon} : M Mon unit :=
  try_except_FileNotFoundError subprocess_run_paplay (emit Bell).

(** The events the hook manager delivers, named after the callbacks the
    constructor registers. *)
Inductive hook_event : Type :=
| KeyDown
| MouseAllButtonsDown
| MouseMovement.

(** What one pass through the body of the renderer's [while] does. *)
Inductive loop_step : Type :=
| Continue
| Break.

(** [exit(main())]: [None] is status 0, an uncaught exception status 1. *)
Definition exit_code (r : res (option Z)) : Z :=
  match r with
  | Ret None => 0
  | Ret (Some n) => n
  | Raise _ => 1
  end.

(** ** dailytimespend.py: escalating alerts and periodic log *)

Module Dailytimespend.

Record InputMonitor : Type := mkMonitor {
  start_time : datetime;
  last_activity : option datetime;
  is_active : bool;
  total_active_time : timedelta;
  time_limit : timedelta;
  running : bool;
  alert_count : Z;
  max_alerts : Z;
  last_log_time : datetime;
  log_interval : timedelta
}.

Definition set_last_activity (v : option datetime) (m : InputMonitor) :=
  mkMonitor (start_time m) v (is_active m) (total_active_time m) (time_limit m)
            (running m) (alert_count m) (max_alerts m) (last_log_time m)
            (log_interval m).
Definition set_is_active (v : bool) (m : InputMonitor) :=
  mkMonitor (start_time m) (last_activity m) v (total_active_time m)
            (time_limit m) (running m) (alert_count m) (max_alerts m)
            (last_log_time m) (log_interval m).
Definition set_total_active_time (v : timedelta) (m : InputMonitor) :=
  mkMonitor (start_time m) (last_activity m) (is_active m) v (time_limit m)
            (running m) (alert_count m) (max_alerts m) (last_log_time m)
            (log_interval m).
Definition set_running (v : bool) (m : InputMonitor) :=
  mkMonitor (start_time m) (last_activity m) (is_active m)
            (total_active_time m) (time_limit m) v (alert_count m)
            (max_alerts m) (last_log_time m) (log_interval m).
Definition set_alert_count (v : Z) (m : InputMonitor) :=
  mkMonitor (start_time m) (last_activity m) (is_active m)
            (total_active_time m) (time_limit m) (running m) v (max_alerts m)
            (last_log_time m) (log_interval m).
Definition set_last_log_time (v : datetime) (m : InputMonitor) :=
  mkMonitor (start_time m) (last_activity m) (is_active m)
            (total_active_time m) (time_limit m) (running m) (alert_count m)
            (max_alerts m) v (log_interval m).

(** [InputMonitor(time_limit)]: the process right after [__init__]. *)
Definition init (w : World) (time_limit : timedelta) : Sys InputMonitor :=
  mkSys (mkMonitor (clock w 0%nat) None false 0 time_limit true 0 5
                   (clock w 1%nat) (2 * second))
        2%nat 0%nat 0%nat [].

Definition log_activity (event_type : string) : M InputMonitor unit :=
  self <- get ;;
  let remaining_time := Z.max 0 (time_limit self - total_active_time self) in
  now <- datetime_now ;;
  let session_duration := now - start_time self in
  append_to_log (
    stamp <- datetime_now ;;
    rate <- lift_res (truediv (total_active_time self)
                              (Z.max second session_duration)) ;;
    ret (LogAppend (mkLog stamp event_type
                     (format_timedelta session_duration)
                     (format_timedelta (total_active_time self))
                     (format_timedelta (time_limit self))
                     (format_timedelta remaining_time)
                     rate
                     (alert_count self, max_alerts self)
                     (if remaining_time <=? 0 then "Time Limit Reached"
                      else "Active")))).

Definition check_time_limit : M InputMonitor unit :=
  self <- get ;;
  when (time_limit self <=? total_active_time self) (
    when (alert_count self <? max_alerts self) (
      play_alert ;;
      modify (fun m => set_alert_count (alert_count m + 1) m) ;;
      log_activity "Time Limit Alert") ;;
    self <- get ;;
    when (max_alerts self <=? alert_count self) (
      modify (set_running false) ;;
      log_activity "Session Ended - Time Limit Reached" ;;
      emit (Print (LimitReachedAlerts (time_limit self))) ;;
      emit HookCancel)).

Definition check_log_update : M InputMonitor unit :=
  current_time <- datetime_now ;;
  self <- get ;;
  when (log_interval self <=? current_time - last_log_time self) (
    log_activity "Regular Update" ;;
    modify (set_last_log_time current_time)).

Definition handle_keyboard : M InputMonitor unit :=
  current_time <- datetime_now ;;
  self <- get ;;
  match last_activity self with
  | None => modify (set_last_activity (Some current_time))
  | Some last =>
    let time_diff := current_time - last in
    when (time_diff <=? 1 * second)
         (modify (fun m => set_total_active_time
                             (total_active_time m + time_diff) m))
  end ;;
  modify (set_last_activity (Some current_time)) ;;
  modify (set_is_active true) ;;
  check_time_limit ;;
  check_log_update.

Definition handle_mouse_click : M InputMonitor unit := handle_keyboard.

Definition handle_mouse_movement : M InputMonitor unit :=
  current_time <- datetime_now ;;
  self <- get ;;
  when (match last_activity self with
        | None => true
        | Some last => 100000 <? current_time - last
        end)
       handle_keyboard.

(** One pass through [while self.running: ...] of [draw_progress_bar].
    [filled_length] is taken on the exact quotient; the binary64 product may
    fall on the other side of a cell boundary. *)
Definition draw_progress_bar_step : M InputMonitor loop_step :=
  self <- get ;;
  if negb (running self) then ret Break else
  let remaining_time := time_limit self - total_active_time self in
  if remaining_time <=? 0 then ret Break else
  progress <- lift_res (truediv (total_active_time self) (time_limit self)) ;;
  let bar_length := 40 in
  let filled_length := Z.quot (bar_length * num progress) (den progress) in
  let bar := (str_mul "=" filled_length
              ++ str_mul "-" (bar_length - filled_length))%string in
  let elapsed := format_timedelta (total_active_time self) in
  let remaining := format_timedelta remaining_time in
  let total := format_timedelta (time_limit self) in
  let activity_indicator := (if is_active self then "*" else " ")%string in
  let alert_info :=
    if 0 <? alert_count self
    then Some (alert_count self, max_alerts self) else None in
  emit (Progress (mkLine bar activity_indicator elapsed total remaining
                         alert_info)) ;;
  modify (set_is_active false) ;;
  emit Sleep ;;
  ret Continue.

Definition start : M InputMonitor unit :=
  self <- get ;;
  emit (Print (Starting (time_limit self))) ;;
  emit (Print LoggingTo) ;;
  emit (Print Legend) ;;
  emit (Print (AlertTimes (max_alerts self))) ;;
  emit (Print (LogEvery ((log_interval self / second) mod 86400))) ;;
  log_activity "Session Started" ;;
  emit ThreadStart ;;
  emit HookStart.

(** [main] with [args.time] already extracted from the command line. *)
Definition main (w : World) (time : string) : res (option Z) * list effect :=
  match parse_time_limit time with
  | Ret time_limit =>
    match start w (init w time_limit) with
    | (Ret _, s) => (Ret None, out s)
    | (Raise (ValueError msg), s) =>
      (Ret (Some 1), out s ++ [Print (ErrorMsg (ValueError msg))])
    | (Raise e, s) => (Raise e, out s)
    end
  | Raise (ValueError msg) =>
    (Ret (Some 1), [Print (ErrorMsg (ValueError msg))])
  | Raise e => (Raise e, [])
  end.

(** The hook manager calling the registered callback; an exception that
    escapes the callback leaves the monitor as the callback left it. *)
Definition deliver (w : World) (e : hook_event) (s : Sys InputMonitor)
  : Sys InputMonitor :=
  snd (match e with
       | KeyDown => handle_keyboard w s
       | MouseAllButtonsDown => handle_mouse_click w s
       | MouseMovement => handle_mouse_movement w s
       end).

Definition deliver_all (w : World) (es : list hook_event)
  (s : Sys InputMonitor) : Sys InputMonitor :=
  fold_left (fun s e => deliver w e s) es s.

(** *** Observations on a run, used to state the properties

    [update_time w e s] is the timestamp with which event [e], delivered in
    state [s], reaches [handle_keyboard], and [None] when the event is
    dropped before. *)
Definition update_time (w : World) (e : hook_event) (s : Sys InputMonitor)
  : option datetime :=
  match e with
  | KeyDown | MouseAllButtonsDown => Some (clock w (ticks s))
  | MouseMovement =>
    if match last_activity (mon s) with
       | None => true
       | Some last => 100000 <? clock w (ticks s) - last
       end
    then Some (clock w (S (ticks s)))
    else None
  end.

(** The timestamps of the updates of a run, in order. *)
Fixpoint stamps (w : World) (es : list hook_event) (s : Sys InputMonitor)
  : list datetime :=
  match es with
  | [] => []
  | e :: es' =>
    match update_time w e s with
    | Some t => t :: stamps w es' (deliver w e s)
    | None => stamps w es' (deliver w e s)
    end
  end.

(** Whether delivering [e] in [s] is an update that leaves the active time
    at or above the limit. *)
Definition breach (w : World) (e : hook_event) (s : Sys InputMonitor) : bool :=
  match update_time w e s with
  | Some _ =>
    time_limit (mon (deliver w e s)) <=? total_active_time (mon (deliver w e s))
  | None => false
  end.

(** The number of such updates in a run. *)
Fixpoint breaches (w : World) (es : list hook_event) (s : Sys InputMonitor)
  : nat :=
  match es with
  | [] => 0%nat
  | e :: es' =>
    ((if breach w e s then 1 else 0) + breaches w es' (deliver w e s))%nat
  end.

(** The monitor once [handle_keyboard] has done its accounting for an update
    at time [t], before it checks the limit. *)
Definition accounted (t : datetime) (m : InputMonitor) : InputMonitor :=
  set_is_active true
    (set_last_activity (Some t)
       (match last_activity m with
        | None => m
        | Some last =>
          if t - last <=? 1 * second
          then set_total_active_time (total_active_time m + (t - last)) m
          else m
        end)).

(** The fields that neither the check of the limit nor the periodic log
    touches. *)
Definition same_account (m m' : InputMonitor) : Prop :=
  start_time m' = start_time m
  /\ last_activity m' = last_activity m
  /\ is_active m' = is_active m
  /\ total_active_time m' = total_active_time m
  /\ time_limit m' = time_limit m
  /\ max_alerts m' = max_alerts m
  /\ log_interval m' = log_interval m.

End Dailytimespend.

(** ** dailytimespend1.py: stop at the first breach *)

Module Dailytimespend1.

Record InputMonitor : Type := mkMonitor {
  start_time : datetime;
  last_activity : option datetime;
  is_active : bool;
  total_active_time : timedelta;
  time_limit : timedelta;
  running : bool
}.

Definition set_last_activity (v : option datetime) (m : InputMonitor) :=
  mkMonitor (start_time m) v (is_active m) (total_active_time m) (time_limit m)
            (running m).
Definition set_is_active (v : bool) (m : InputMonitor) :=
  mkMonitor (start_time m) (last_activity m) v (total_active_time m)
            (time_limit m) (running m).
Definition set_total_active_time (v : timedelta) (m : InputMonitor) :=
  mkMonitor (start_time m) (last_activity m) (is_active m) v (time_limit m)
            (running m).
Definition set_running (v : bool) (m : InputMonitor) :=
  mkMonitor (start_time m) (last_activity m) (is_active m)
            (total_active_time m) (time_limit m) v.

Definition init (w : World) (time_limit : timedelta) : Sys InputMonitor :=
  mkSys (mkMonitor (clock w 0%nat) None false 0 time_limit true)
        1%nat 0%nat 0%nat [].

Definition log_activity : M InputMonitor unit :=
  append_to_log (
    now <- datetime_now ;;
    self <- get ;;
    ret (LogActive now (total_active_time self))).

Definition check_time_limit : M InputMonitor unit :=
  self <- get ;;
  when (time_limit self <=? total_active_time self) (
    modify (set_running false) ;;
    play_alert ;;
    log_activity ;;
    emit (Print (LimitReached (time_limit self))) ;;
    emit HookCancel).

Definition handle_keyboard : M InputMonitor unit :=
  current_time <- datetime_now ;;
  self <- get ;;
  match last_activity self with
  | None => modify (set_last_activity (Some current_time))
  | Some last =>
    let time_diff := current_time - last in
    when (time_diff <=? 1 * second)
         (modify (fun m => set_total_active_time
                             (total_active_time m + time_diff) m))
  end ;;
  modify (set_last_activity (Some current_time)) ;;
  modify (set_is_active true) ;;
  check_time_limit.

Definition handle_mouse_click : M InputMonitor unit := handle_keyboard.

Definition handle_mouse_movement : M InputMonitor unit :=
  current_time <- datetime_now ;;
  self <- get ;;
  when (match last_activity self with
        | None => true
        | Some last => 100000 <? current_time - last
        end)
       handle_keyboard.

Definition draw_progress_bar_step : M InputMonitor loop_step :=
  self <- get ;;
  if negb (running self) then ret Break else
  let remaining_time := time_limit self - total_active_time self in
  if remaining_time <=? 0 then ret Break else
  progress <- lift_res (truediv (total_active_time self) (time_limit self)) ;;
  let bar_length := 40 in
  let filled_length := Z.quot (bar_length * num progress) (den progress) in
  let bar := (str_mul "=" filled_length
              ++ str_mul "-" (bar_length - filled_length))%string in
  let elapsed := format_timedelta (total_active_time self) in
  let remaining := format_timedelta remaining_time in
  let total := format_timedelta (time_limit self) in
  let activity_indicator := (if is_active self then "*" else " ")%string in
  emit (Progress (mkLine bar activity_indicator elapsed total remaining
                         None)) ;;
  modify (set_is_active false) ;;
  emit Sleep ;;
  ret Continue.

Definition start : M InputMonitor unit :=
  self <- get ;;
  emit (Print (Starting (time_limit self))) ;;
  emit (Print LoggingTo) ;;
  emit (Print Legend) ;;
  emit ThreadStart ;;
  emit HookStart.

Definition main (w : World) (time : string) : res (option Z) * list effect :=
  match parse_time_limit time with
  | Ret time_limit =>
    match start w (init w time_limit) with
    | (Ret _, s) => (Ret None, out s)
    | (Raise (ValueError msg), s) =>
      (Ret (Some 1), out s ++ [Print (ErrorMsg (ValueError msg))])
    | (Raise e, s) => (Raise e, out s)
    end
  | Raise (ValueError msg) =>
    (Ret (Some 1), [Print (ErrorMsg (ValueError msg))])
  | Raise e => (Raise e, [])
  end.

Definition deliver (w : World) (e : hook_event) (s : Sys InputMonitor)
  : Sys InputMonitor :=
  snd (match e with
       | KeyDown => handle_keyboard w s
       | MouseAllButtonsDown => handle_mouse_click w s
       | MouseMovement => handle_mouse_movement w s
       end).

Definition deliver_all (w : World) (es : list hook_event)
  (s : Sys InputMonitor) : Sys InputMonitor :=
  fold_left (fun s e => deliver w e s) es s.

(** *** Observations on a run, as for the other program *)
Definition update_time (w : World) (e : hook_event) (s : Sys InputMonitor)
  : option datetime :=
  match e with
  | KeyDown | MouseAllButtonsDown => Some (clock w (ticks s))
  | MouseMovement =>
    if match last_activity (mon s) with
       | None => true
       | Some last => 100000 <? clock w (ticks s) - last
       end
    then Some (clock w (S (ticks s)))
    else None
  end.

(** The timestamps of the updates of a run, in order. *)
Fixpoint stamps (w : World) (es : list hook_event) (s : Sys InputMonitor)
  : list datetime :=
  match es with
  | [] => []
  | e :: es' =>
    match update_time w e s with
    | Some t => t :: stamps w es' (deliver w e s)
    | None => stamps w es' (deliver w e s)
    end
  end.

(** Whether delivering [e] in [s] is an update that leaves the active time
    at or above the limit. *)
Definition breach (w : World) (e : hook_event) (s : Sys InputMonitor) : bool :=
  match update_time w e s with
  | Some _ =>
    time_limit (mon (deliver w e s)) <=? total_active_time (mon (deliver w e s))
  | None => false
  end.

(** The number of such updates in a run. *)
Fixpoint breaches (w : World) (es : list hook_event) (s : Sys InputMonitor)
  : nat :=
  match es with
  | [] => 0%nat
  | e :: es' =>
    ((if breach w e s then 1 else 0) + breaches w es' (deliver w e s))%nat
  end.

(** The monitor once [handle_keyboard] has done its accounting for an update
    at time [t], before it checks the limit. *)
Definition accounted (t : datetime) (m : InputMonitor) : InputMonitor :=
  set_is_active true
    (set_last_activity (Some t)
       (match last_activity m with
        | None => m
        | Some last =>
          if t - last <=? 1 * second
          then set_total_active_time (total_active_time m + (t - last)) m
          else m
        end)).

(** The fields that the check of the limit does not touch. *)
Definition same_account (m m' : InputMonitor) : Prop :=
  start_time m' = start_time m
  /\ last_activity m' = last_activity m
  /\ is_active m' = is_active m
  /\ total_active_time m' = total_active_time m
  /\ time_limit m' = time_limit m.

End Dailytimespend1.

Module E := Dailytimespend.
Module I := Dailytimespend1.

(** ** Vocabulary of the properties *)

(** A world in which no call to the outside raises past the program's own
    handlers: the audio utility starts or is missing, the log can be
    written. *)
Definition obliging (w : World) : Prop :=
  (forall n, paplay w n <> SpawnFails) /\ (forall n, log_file w n = Written).

Definition is_alert (e : effect) : bool :=
  match e with
  | PlaySound | Bell => true
  | _ => false
  end.

(** How many times an alert was played. *)
Definition alerts_played (l : list effect) : nat :=
  List.length (filter is_alert l).

(** The effects produced between two states of a run. *)
Definition emitted {Mon} (s s' : Sys Mon) : list effect :=
  skipn (List.length (out s)) (out s').

(** The label of the record that closes a session of dailytimespend.py. *)
Definition session_ended : string := "Session Ended - Time Limit Reached".

(** The process after one more reading of the clock, nothing else changed. *)
Definition after_clock_read {Mon} (s : Sys Mon) : Sys Mon :=
  mkSys (mon s) (S (ticks s)) (spawns s) (appends s) (out s).

Fixpoint non_decreasing (ts : list datetime) : bool :=
  match ts with
  | a :: (b :: _) as rest => (a <=? b) && non_decreasing rest
  | _ => true
  end.

(** The sum of the gaps between consecutive timestamps that are at most one
    second long. *)
Fixpoint short_gaps (ts : list datetime) : timedelta :=
  match ts with
  | a :: (b :: _) as rest =>
    (if b - a <=? second then b - a else 0) + short_gaps rest
  | _ => 0
  end.

(** The timestamps [ts] preceded by the previous activity, if there is one. *)
Definition since (prev : option datetime) (ts : list datetime)
  : list datetime :=
  match prev with
  | Some last => last :: ts
  | None => ts
  end.

(** A clock that advances by [step] microseconds per reading. *)
Definition steady_clock (t0 step : Z) : nat -> datetime :=
  fun n => t0 + Z.of_nat n * step.

Definition quiet_world (t0 step : Z) : World :=
  mkWorld (steady_clock t0 step) (fun _ => Spawned) (fun _ => Written).

(** The same, but the log file cannot be opened. *)
Definition read_only_world (t0 step : Z) : World :=
  mkWorld (steady_clock t0 step) (fun _ => Spawned) (fun _ => OpenFails).

(** The same as [quiet_world], but the audio utility cannot be launched for
    a reason other than its absence. *)
Definition no_exec_world (t0 step : Z) : World :=
  mkWorld (steady_clock t0 step) (fun _ => SpawnFails) (fun _ => Written).


(** Duration strings assembled from optional components: [component d u] is
    the digits [d] followed by the unit letter, or nothing. *)
Definition component (d : option (list ascii)) (unit : ascii) : list ascii :=
  match d with
  | Some ds => ds ++ [unit]
  | None => []
  end.

(** A number that [int] converts: at least one digit, only digits, and not
    more of them than the interpreter's default limit on the conversion. *)
Definition is_number (d : list ascii) : Prop :=
  d <> [] /\ forallb is_digit d = true /\ (List.length d <= 4300)%nat.

Definition decimal_value (d : list ascii) : Z :=
  fold_left (fun acc c => 10 * acc + digit_value c) d 0.

Definition value_or_0 (d : option (list ascii)) : Z :=
  match d with
  | Some ds => decimal_value ds
  | None => 0
  end.

Fixpoint after_digits (s : list ascii) : list ascii :=
  match s with
  | c :: s' => if is_digit c then after_digits s' else s
  | [] => []
  end.

Definition starts_with (u : ascii) (s : list ascii) : bool :=
  match s with
  | c :: _ => Ascii.eqb u c
  | [] => false
  end.


(** The run of digits a string starts with. *)
Fixpoint leading_digits (s : list ascii) : list ascii :=
  match s with
  | c :: s' => if is_digit c then c :: leading_digits s' else []
  | [] => []
  end.

(** Captured groups that are all numbers. *)
Definition numeric_groups (caps : captures) : Prop :=
  forall n d, caps n = Some d -> d <> [] /\ forallb is_digit d = true.

(** What happens in a session: the hook manager delivers an event, or the
    renderer thread makes one pass through its loop. *)
Inductive action : Type :=
| Hook (e : hook_event)
| Pass.

Definition esc_perform (w : World) (a : action) (s : Sys E.InputMonitor)
  : Sys E.InputMonitor :=
  match a with
  | Hook e => E.deliver w e s
  | Pass => snd (E.draw_progress_bar_step w s)
  end.

Definition esc_session (w : World) (acts : list action)
  (s : Sys E.InputMonitor) : Sys E.InputMonitor :=
  fold_left (fun s a => esc_perform w a s) acts s.

Definition imm_perform (w : World) (a : action) (s : Sys I.InputMonitor)
  : Sys I.InputMonitor :=
  match a with
  | Hook e => I.deliver w e s
  | Pass => snd (I.draw_progress_bar_step w s)
  end.

Definition imm_session (w : World) (acts : list action)
  (s : Sys I.InputMonitor) : Sys I.InputMonitor :=
  fold_left (fun s a => imm_perform w a s) acts s.

Definition is_log (e : effect) : bool :=
  match e with
  | LogAppend _ | LogActive _ _ => true
  | _ => false
  end.

Definition is_progress (e : effect) : bool :=
  match e with
  | Progress _ | Sleep => true
  | _ => false
  end.

(** What holds of dailytimespend.py at every point of a session with the
    limit [limit]: the configuration is the initial one, the alerts that
    were played are counted and are at most five, a stopped session has
    used them up, the hook is cancelled only for a stopped session, and the
    activity flag is raised only after some activity. *)
Definition esc_session_ok (w : World) (limit : timedelta)
  (s : Sys E.InputMonitor) : Prop :=
  let m := mon s in
  (E.time_limit m = limit /\ E.max_alerts m = 5
   /\ E.start_time m = clock w 0%nat /\ E.log_interval m = 2 * second)
  /\ (0 <= E.alert_count m <= 5
      /\ Z.of_nat (alerts_played (out s)) = E.alert_count m)
  /\ (E.running m = false -> E.alert_count m = 5)
  /\ (In HookCancel (out s) -> E.running m = false)
  /\ (E.is_active m = true -> E.last_activity m <> None).

(** The same for dailytimespend1.py: the limit is the initial one, anything
    in the output that is not the renderer's means that the session has
    stopped, and the activity flag is raised only after some activity. *)
Definition imm_session_ok (limit : timedelta) (s : Sys I.InputMonitor)
  : Prop :=
  let m := mon s in
  I.time_limit m = limit
  /\ (forall e, In e (out s) -> is_progress e = false -> I.running m = false)
  /\ (I.is_active m = true -> I.last_activity m <> None).

(** * Properties *)

(** ** The parser of the time limit *)

Section Regex.

Context {R : Type}.

Lemma run_regex_Opt_total (r : regex) (k : list ascii -> captures -> option R) :
  (forall s caps, k s caps <> None) ->
  forall s caps, run_regex (Opt r) s caps k <> None.
Proof.
  intros Hk s caps. simpl.
  destruct (run_regex r s caps k); [discriminate | apply Hk].
Qed.

(** The loop of [\d+] gives up when the continuation refuses every point
    that follows a run of digits. *)
Lemma plus_digit_refused (k : list ascii -> captures -> option R) :
  forall fuel s caps,
    (forall p t caps', s = p ++ t -> forallb is_digit p = true ->
                       k t caps' = None) ->
    (fix loop (fuel : nat) (s : list ascii) (caps : captures) {struct fuel}
       : option R :=
       run_regex Digit s caps (fun s' caps' =>
         match fuel with
         | O => k s' caps'
         | S fuel' =>
           match loop fuel' s' caps' with
           | Some x => Some x
           | None => k s' caps'
           end
         end)) fuel s caps = None.
Proof.
  induction fuel as [|fuel IH]; intros s caps Hk.
  - destruct s as [|c s']; simpl; [reflexivity|].
    destruct (is_digit c) eqn:Hc; [|reflexivity].
    apply (Hk [c] s'); [reflexivity | simpl; now rewrite Hc].
  - destruct s as [|c s']; [reflexivity|].
    cbn [run_regex]. destruct (is_digit c) eqn:Hc; [|reflexivity].
    rewrite IH.
    + apply (Hk [c] s'); [reflexivity | simpl; now rewrite Hc].
    + intros p t caps' -> Hp.
      apply (Hk (c :: p) t); [reflexivity | simpl; now rewrite Hc].
Qed.

(** Greedy: over a run of digits that ends before a non-digit, the loop
    hands the continuation the end of the run when it accepts it. *)
Lemma plus_digit_greedy (k : list ascii -> captures -> option R) :
  forall d fuel rest caps,
    d <> [] -> forallb is_digit d = true ->
    (List.length d <= S fuel)%nat ->
    match rest with c :: _ => is_digit c = false | [] => True end ->
    k rest caps <> None ->
    (fix loop (fuel : nat) (s : list ascii) (caps : captures) {struct fuel}
       : option R :=
       run_regex Digit s caps (fun s' caps' =>
         match fuel with
         | O => k s' caps'
         | S fuel' =>
           match loop fuel' s' caps' with
           | Some x => Some x
           | None => k s' caps'
           end
         end)) fuel (d ++ rest) caps = k rest caps.
Proof.
  induction d as [|c d IH]; intros fuel rest caps Hne Hd Hlen Hrest Hk;
    [congruence|].
  simpl in Hd. apply andb_true_iff in Hd as [Hc Hd].
  destruct d as [|c' d].
  - destruct fuel as [|fuel]; simpl; rewrite Hc; [reflexivity|].
    destruct fuel as [|fuel]; destruct rest as [|c1 rest]; simpl;
      try rewrite Hrest; reflexivity.
  - destruct fuel as [|fuel]; [simpl in Hlen; lia|].
    change ((c :: c' :: d) ++ rest) with (c :: (c' :: d) ++ rest).
    cbn [run_regex]. rewrite Hc.
    rewrite IH; try assumption; try discriminate.
    + destruct (k rest caps); [reflexivity | congruence].
    + simpl in *. lia.
Qed.

End Regex.

Section RegexEquations.

Context {R : Type}.
Variable k : list ascii -> captures -> option R.

Lemma run_regex_Cat r1 r2 s caps :
  run_regex (Cat r1 r2) s caps k
  = run_regex r1 s caps (fun s' caps' => run_regex r2 s' caps' k).
Proof. reflexivity. Qed.

Lemma run_regex_Opt r s caps :
  run_regex (Opt r) s caps k
  = match run_regex r s caps k with
    | Some x => Some x
    | None => k s caps
    end.
Proof. reflexivity. Qed.

Lemma run_regex_Group n r s caps :
  run_regex (Group n r) s caps k
  = run_regex r s caps (fun s' caps' =>
      k s' (set_capture n (firstn (List.length s - List.length s') s) caps')).
Proof. reflexivity. Qed.

Lemma run_regex_Lit u s caps :
  run_regex (Lit u) s caps k
  = match s with
    | c :: s' => if Ascii.eqb u c then k s' caps else None
    | [] => None
    end.
Proof. reflexivity. Qed.

Lemma run_regex_digits_refused s caps :
  (forall p t caps', s = p ++ t -> forallb is_digit p = true ->
                     k t caps' = None) ->
  run_regex (Plus Digit) s caps k = None.
Proof. intros Hk. apply (plus_digit_refused k (List.length s) s caps Hk). Qed.

Lemma run_regex_digits_greedy d rest caps :
  d <> [] -> forallb is_digit d = true ->
  match rest with c :: _ => is_digit c = false | [] => True end ->
  k rest caps <> None ->
  run_regex (Plus Digit) (d ++ rest) caps k = k rest caps.
Proof.
  intros Hne Hd Hrest Hk.
  apply (plus_digit_greedy k d (List.length (d ++ rest)) rest caps);
    try assumption.
  rewrite length_app. lia.
Qed.

End RegexEquations.

Lemma firstn_run (d rest : list ascii) :
  firstn (List.length (d ++ rest) - List.length rest) (d ++ rest) = d.
Proof.
  rewrite length_app, Nat.add_sub. rewrite firstn_app, Nat.sub_diag.
  rewrite firstn_all. simpl. apply app_nil_r.
Qed.

Lemma digits_split_tail (u : ascii) :
  is_digit u = false ->
  forall p s t, s = p ++ t -> forallb is_digit p = true ->
    starts_with u (after_digits s) = false -> starts_with u t = false.
Proof.
  intros Hu. induction p as [|c p IH]; intros s t -> Hp Hs.
  - simpl in Hs. destruct t as [|c t]; [reflexivity|].
    simpl in *. destruct (is_digit c) eqn:Hc; [|exact Hs].
    destruct (Ascii.eqb u c) eqn:E; [|reflexivity].
    apply Ascii.eqb_eq in E. congruence.
  - simpl in Hp. apply andb_true_iff in Hp as [Hc Hp].
    simpl in Hs. rewrite Hc in Hs. now apply (IH (p ++ t)).
Qed.

Lemma after_digits_run d c rest :
  forallb is_digit d = true -> is_digit c = false ->
  after_digits (d ++ c :: rest) = c :: rest.
Proof.
  induction d as [|c' d IH]; simpl; intros Hd Hc.
  - now rewrite Hc.
  - apply andb_true_iff in Hd as [Hc' Hd]. rewrite Hc'. now apply IH.
Qed.

Section UnitGroup.

Context {R : Type}.
Variables (n : nat) (u : ascii) (K : list ascii -> captures -> option R).
Hypothesis u_not_digit : is_digit u = false.

(** A number followed by the unit letter is consumed and captured. *)
Lemma unit_group_hit (d rest : list ascii) (caps : captures) :
  d <> [] -> forallb is_digit d = true ->
  K rest (set_capture n d caps) <> None ->
  run_regex (unit_group n u) (d ++ u :: rest) caps K
  = K rest (set_capture n d caps).
Proof.
  intros Hne Hd HK. unfold unit_group.
  rewrite run_regex_Opt, run_regex_Cat, run_regex_Group.
  rewrite run_regex_digits_greedy; try assumption.
  - rewrite run_regex_Lit, Ascii.eqb_refl, firstn_run.
    destruct (K rest (set_capture n d caps)); [reflexivity | congruence].
  - rewrite run_regex_Lit, Ascii.eqb_refl, firstn_run. exact HK.
Qed.

(** Anything else leaves the group unmatched and the input where it was. *)
Lemma unit_group_miss (s : list ascii) (caps : captures) :
  starts_with u (after_digits s) = false ->
  run_regex (unit_group n u) s caps K = K s caps.
Proof.
  intros Hs. unfold unit_group.
  rewrite run_regex_Opt, run_regex_Cat, run_regex_Group.
  rewrite run_regex_digits_refused; [reflexivity|].
  intros p t caps' E Hp. rewrite run_regex_Lit.
  pose proof (digits_split_tail u u_not_digit p s t E Hp Hs) as Ht.
  destruct t as [|c t]; [reflexivity|]. simpl in Ht. now rewrite Ht.
Qed.

End UnitGroup.

(** The pattern matches at the start of every string: [re.match] never
    returns [None]. *)
Lemma re_match_pattern_total (time_str : string) :
  re_match pattern time_str <> None.
Proof.
  unfold re_match, pattern. rewrite !run_regex_Cat.
  apply run_regex_Opt_total. intros s1 c1.
  apply run_regex_Opt_total. intros s2 c2.
  apply run_regex_Opt_total. intros s3 c3. discriminate.
Qed.

(** No input makes [parse_time_limit] raise its format error. *)
Lemma parse_time_limit_never_rejects_format (time_str : string) :
  parse_time_limit time_str <> Raise (ValueError invalid_time_format).
Proof.
  unfold parse_time_limit.
  destruct (re_match pattern time_str) as [m|] eqn:Hm;
    [|now apply re_match_pattern_total in Hm].
  assert (Hint : forall g, int_group_or_0 g <>
                           Raise (ValueError invalid_time_format)).
  { intros g. unfold int_group_or_0, int_of_str.
    destruct g as [[|c l]|]; try discriminate.
    destruct (forallb is_digit (c :: l)); discriminate. }
  destruct (int_group_or_0 (m 1%nat)) as [h|e] eqn:E1;
    [|intros H; inversion H; subst; now apply Hint in E1].
  destruct (int_group_or_0 (m 2%nat)) as [mi|e] eqn:E2;
    [|intros H; inversion H; subst; now apply Hint in E2].
  destruct (int_group_or_0 (m 3%nat)) as [se|e] eqn:E3;
    [|intros H; inversion H; subst; now apply Hint in E3].
  unfold timedelta_new.
  destruct (999999999 <? _); discriminate.
Qed.

Lemma int_group_number (d : list ascii) :
  is_number d -> int_group_or_0 (Some d) = Ret (decimal_value d).
Proof.
  intros (Hne & Hd & _). destruct d as [|c d]; [congruence|].
  unfold int_group_or_0, int_of_str. now rewrite Hd.
Qed.

Ltac regex_total :=
  cbv beta; rewrite ?run_regex_Cat; unfold unit_group;
  repeat (apply run_regex_Opt_total; intros); discriminate.

Ltac unit_group_step :=
  first
    [ rewrite unit_group_hit by first [assumption | reflexivity | regex_total]
    | rewrite unit_group_miss by
        first [ reflexivity
              | rewrite after_digits_run by (assumption || reflexivity);
                reflexivity ] ].

(** Each of the three components may be left out, and one that is left out
    counts as zero. *)
Lemma parse_time_limit_optional (h m s : option (list ascii)) :
  (forall d, In (Some d) [h; m; s] -> is_number d) ->
  parse_time_limit
    (string_of_list_ascii (component h "h" ++ component m "m" ++ component s "s"))
  = timedelta_new (value_or_0 h) (value_or_0 m) (value_or_0 s).
Proof.
  intros H. unfold parse_time_limit, re_match, pattern.
  rewrite list_ascii_of_string_of_list_ascii.
  destruct h as [dh|], m as [dm|], s as [ds|]; simpl component.
  all: repeat match goal with
       | d : list ascii |- _ =>
         lazymatch goal with
         | _ : is_number d |- _ => fail
         | _ => assert (is_number d) by (apply H; simpl; auto)
         end
       end.
  all: repeat match goal with
       | Hn : is_number _ |- _ =>
         pose proof (int_group_number _ Hn); destruct Hn as (? & ? & _)
       end.
  all: rewrite <- ?app_assoc; cbn [app].
  all: rewrite run_regex_Cat; unit_group_step.
  all: rewrite run_regex_Cat; unit_group_step.
  all: unit_group_step.
  all: cbn [set_capture no_captures Nat.eqb value_or_0].
  all: repeat match goal with
       | E : int_group_or_0 _ = _ |- _ => rewrite E; clear E
       end.
  all: reflexivity.
Qed.

(** C4: [parse_time_limit] maps "1h10m1s" to one hour, ten minutes and one
    second, the empty string to the zero duration, "10m" to ten minutes and
    "abc" to the zero duration; in general each of the hour, minute and
    second components may be absent, and an absent component counts as 0. *)
Theorem C4_parse_time_limit_permissive :
  parse_time_limit "1h10m1s" = Ret (1 * 3600 * second + 10 * 60 * second + 1 * second)
  /\ parse_time_limit "" = Ret 0
  /\ parse_time_limit "10m" = Ret (10 * 60 * second)
  /\ parse_time_limit "abc" = Ret 0
  /\ forall h m s : option (list ascii),
       (forall d, In (Some d) [h; m; s] -> is_number d) ->
       parse_time_limit
         (string_of_list_ascii
            (component h "h" ++ component m "m" ++ component s "s"))
       = timedelta_new (value_or_0 h) (value_or_0 m) (value_or_0 s).
Proof.
  repeat split; try reflexivity.
  apply parse_time_limit_optional.
Qed.

Lemma C4_witness :
  parse_time_limit "2h30s" = Ret (2 * 3600 * second + 30 * second).
Proof.
  destruct C4_parse_time_limit_permissive as (_ & _ & _ & _ & H).
  apply (H (Some ["2"%char]) None (Some ["3"%char; "0"%char])).
  intros d [E | [E | [E | []]]]; inversion E; subst;
    (split; [discriminate | split; [reflexivity | cbn; lia]]).
Defined.

(** ** The monad and the calls to the outside *)

Ltac run_monad :=
  unfold when;
  unfold bind, ret, get, modify, emit, raise, lift_res, datetime_now;
  cbn [fst snd mon ticks spawns appends out].

Lemma play_alert_run {Mon} (w : World) (s : Sys Mon) :
  play_alert w s =
  match paplay w (spawns s) with
  | Spawned =>
    (Ret tt, mkSys (mon s) (ticks s) (S (spawns s)) (appends s)
                   (out s ++ [PlaySound]))
  | ExecutableNotFound =>
    (Ret tt, mkSys (mon s) (ticks s) (S (spawns s)) (appends s)
                   (out s ++ [Bell]))
  | SpawnFails =>
    (Raise OSError, mkSys (mon s) (ticks s) (S (spawns s)) (appends s) (out s))
  end.
Proof.
  unfold play_alert, try_except_FileNotFoundError, subprocess_run_paplay.
  destruct (paplay w (spawns s)); reflexivity.
Qed.

(** ** dailytimespend.py *)

Lemma esc_log_activity_run (w : World) (ty : string) (s : Sys E.InputMonitor) :
  E.log_activity ty w s =
  let self := mon s in
  let remaining_time :=
    Z.max 0 (E.time_limit self - E.total_active_time self) in
  let session_duration := clock w (ticks s) - E.start_time self in
  match log_file w (appends s) with
  | OpenFails =>
    (Raise OSError,
     mkSys self (S (ticks s)) (spawns s) (S (appends s)) (out s))
  | WriteFails =>
    (Raise OSError,
     mkSys self (S (S (ticks s))) (spawns s) (S (appends s)) (out s))
  | Written =>
    (Ret tt,
     mkSys self (S (S (ticks s))) (spawns s) (S (appends s))
       (out s ++
        [LogAppend
           (mkLog (clock w (S (ticks s))) ty
              (format_timedelta session_duration)
              (format_timedelta (E.total_active_time self))
              (format_timedelta (E.time_limit self))
              (format_timedelta remaining_time)
              (mkRatio (E.total_active_time self)
                       (Z.max second session_duration))
              (E.alert_count self, E.max_alerts self)
              (if remaining_time <=? 0 then "Time Limit Reached"
               else "Active"))]))
  end.
Proof.
  unfold E.log_activity, append_to_log. run_monad. unfold truediv.
  assert (Hden : (Z.max second (clock w (ticks s) - E.start_time (mon s)) =? 0)
                 = false).
  { apply Z.eqb_neq. unfold second. lia. }
  destruct (log_file w (appends s)); cbn; rewrite ?Hden; reflexivity.
Qed.

Ltac esc_fields :=
  cbn [fst snd mon ticks spawns appends out
       E.start_time E.last_activity E.is_active E.total_active_time
       E.time_limit E.running E.alert_count E.max_alerts E.last_log_time
       E.log_interval E.set_last_activity E.set_is_active
       E.set_total_active_time E.set_running E.set_alert_count
       E.set_last_log_time].

Ltac esc_outside w :=
  repeat first
    [ rewrite play_alert_run
    | rewrite esc_log_activity_run
    | progress esc_fields
    | match goal with
      | |- context [match paplay w ?n with _ => _ end] =>
        destruct (paplay w n) eqn:?
      | |- context [match log_file w ?n with _ => _ end] =>
        destruct (log_file w n) eqn:?
      end ].

(** What [check_time_limit] can do to the monitor, whatever the outside
    does: the alert count moves up by at most one, and only below the
    maximum; [running] is cleared only with the count at the maximum. *)
Lemma esc_check_time_limit_frame (w : World) (s : Sys E.InputMonitor) :
  let m := mon s in
  let m' := mon (snd (E.check_time_limit w s)) in
  E.same_account m m'
  /\ E.last_log_time m' = E.last_log_time m
  /\ (E.alert_count m' = E.alert_count m
      \/ E.alert_count m' = E.alert_count m + 1
         /\ E.alert_count m < E.max_alerts m)
  /\ (E.running m' = E.running m
      \/ E.running m' = false /\ E.max_alerts m <= E.alert_count m').
Proof.
  unfold E.check_time_limit, E.same_account. run_monad.
  destruct (E.time_limit (mon s) <=? E.total_active_time (mon s));
    [|esc_fields; tauto].
  destruct (E.alert_count (mon s) <? E.max_alerts (mon s)) eqn:Ha.
  - apply Z.ltb_lt in Ha. esc_outside w; try tauto.
    all: destruct (E.max_alerts (mon s) <=? E.alert_count (mon s) + 1) eqn:Hm;
      esc_outside w.
    all: first [apply Z.leb_le in Hm | apply Z.leb_gt in Hm];
      intuition (auto; lia).
  - esc_fields.
    destruct (E.max_alerts (mon s) <=? E.alert_count (mon s)) eqn:Hm;
      esc_outside w.
    all: first [apply Z.leb_le in Hm | apply Z.leb_gt in Hm].
    all: intuition (auto; lia).
Qed.

Lemma esc_check_log_update_frame (w : World) (s : Sys E.InputMonitor) :
  let m := mon s in
  let m' := mon (snd (E.check_log_update w s)) in
  E.same_account m m'
  /\ E.alert_count m' = E.alert_count m
  /\ E.running m' = E.running m.
Proof.
  unfold E.check_log_update, E.same_account. run_monad.
  destruct (E.log_interval (mon s) <=? _); esc_outside w; tauto.
Qed.

Lemma esc_same_account_trans (m1 m2 m3 : E.InputMonitor) :
  E.same_account m1 m2 -> E.same_account m2 m3 -> E.same_account m1 m3.
Proof. unfold E.same_account. intuition congruence. Qed.

(** [handle_keyboard] is the accounting followed by the two checks. *)
Lemma esc_handle_keyboard_run (w : World) (s : Sys E.InputMonitor) :
  E.handle_keyboard w s =
  (E.check_time_limit ;; E.check_log_update) w
    (mkSys (E.accounted (clock w (ticks s)) (mon s))
           (S (ticks s)) (spawns s) (appends s) (out s)).
Proof.
  unfold E.handle_keyboard, E.accounted. run_monad.
  destruct (E.last_activity (mon s)) as [last|]; [|reflexivity].
  destruct (clock w (ticks s) - last <=? 1 * second); reflexivity.
Qed.

(** What one update can do to the monitor, whatever the outside does. *)
Lemma esc_handle_keyboard_frame (w : World) (s : Sys E.InputMonitor) :
  let m := mon s in
  let m' := mon (snd (E.handle_keyboard w s)) in
  E.same_account (E.accounted (clock w (ticks s)) m) m'
  /\ (E.alert_count m' = E.alert_count m
      \/ E.alert_count m' = E.alert_count m + 1
         /\ E.alert_count m < E.max_alerts m)
  /\ (E.running m' = E.running m
      \/ E.running m' = false /\ E.max_alerts m <= E.alert_count m').
Proof.
  cbv zeta. rewrite esc_handle_keyboard_run.
  set (s1 := mkSys _ _ _ _ _).
  assert (H1 : E.alert_count (mon s1) = E.alert_count (mon s)
               /\ E.max_alerts (mon s1) = E.max_alerts (mon s)
               /\ E.running (mon s1) = E.running (mon s)).
  { unfold s1, E.accounted. cbn [mon].
    destruct (E.last_activity (mon s)) as [last|]; [|esc_fields; tauto].
    destruct (_ <=? _); esc_fields; tauto. }
  destruct H1 as (Ha & Hmax & Hr).
  pose proof (esc_check_time_limit_frame w s1) as H2. cbv zeta in H2.
  unfold bind. destruct (E.check_time_limit w s1) as [[[]|e] s2];
    cbn [snd] in *.
  - pose proof (esc_check_log_update_frame w s2) as H3. cbv zeta in H3.
    destruct H2 as (F2 & _ & A2 & R2), H3 as (F3 & A3 & R3).
    split; [eapply esc_same_account_trans; eassumption|].
    rewrite A3, R3, <- Ha, <- Hmax, <- Hr. tauto.
  - destruct H2 as (F2 & _ & A2 & R2).
    split; [exact F2|]. rewrite <- Ha, <- Hmax, <- Hr. tauto.
Qed.

Lemma esc_accounted_fields (t : datetime) (m : E.InputMonitor) :
  E.last_activity (E.accounted t m) = Some t
  /\ E.is_active (E.accounted t m) = true
  /\ E.total_active_time (E.accounted t m) =
     match E.last_activity m with
     | None => E.total_active_time m
     | Some last =>
       if t - last <=? second
       then E.total_active_time m + (t - last)
       else E.total_active_time m
     end
  /\ E.time_limit (E.accounted t m) = E.time_limit m
  /\ E.start_time (E.accounted t m) = E.start_time m.
Proof.
  unfold E.accounted. change (1 * second) with second.
  destruct (E.last_activity m) as [last|]; [|esc_fields; tauto].
  destruct (t - last <=? second); esc_fields; tauto.
Qed.

(** ** dailytimespend1.py *)

Lemma imm_log_activity_run (w : World) (s : Sys I.InputMonitor) :
  I.log_activity w s =
  match log_file w (appends s) with
  | OpenFails =>
    (Raise OSError, mkSys (mon s) (ticks s) (spawns s) (S (appends s)) (out s))
  | WriteFails =>
    (Raise OSError,
     mkSys (mon s) (S (ticks s)) (spawns s) (S (appends s)) (out s))
  | Written =>
    (Ret tt,
     mkSys (mon s) (S (ticks s)) (spawns s) (S (appends s))
           (out s ++ [LogActive (clock w (ticks s))
                                (I.total_active_time (mon s))]))
  end.
Proof.
  unfold I.log_activity, append_to_log. run_monad.
  destruct (log_file w (appends s)); reflexivity.
Qed.

Ltac imm_fields :=
  cbn [fst snd mon ticks spawns appends out
       I.start_time I.last_activity I.is_active I.total_active_time
       I.time_limit I.running I.set_last_activity I.set_is_active
       I.set_total_active_time I.set_running].

Ltac imm_outside w :=
  repeat first
    [ rewrite play_alert_run
    | rewrite imm_log_activity_run
    | progress imm_fields
    | match goal with
      | |- context [match paplay w ?n with _ => _ end] =>
        destruct (paplay w n) eqn:?
      | |- context [match log_file w ?n with _ => _ end] =>
        destruct (log_file w n) eqn:?
      end ].

Lemma imm_check_time_limit_frame (w : World) (s : Sys I.InputMonitor) :
  let m := mon s in
  let m' := mon (snd (I.check_time_limit w s)) in
  I.same_account m m'
  /\ I.running m' =
     if I.time_limit m <=? I.total_active_time m then false else I.running m.
Proof.
  unfold I.check_time_limit, I.same_account. run_monad.
  destruct (I.time_limit (mon s) <=? I.total_active_time (mon s));
    imm_outside w; tauto.
Qed.

Lemma imm_handle_keyboard_run (w : World) (s : Sys I.InputMonitor) :
  I.handle_keyboard w s =
  I.check_time_limit w
    (mkSys (I.accounted (clock w (ticks s)) (mon s))
           (S (ticks s)) (spawns s) (appends s) (out s)).
Proof.
  unfold I.handle_keyboard, I.accounted. run_monad.
  destruct (I.last_activity (mon s)) as [last|].
  - destruct (clock w (ticks s) - last <=? 1 * second); cbn [fst snd];
      destruct (I.check_time_limit w _) as [[[]|] ?]; reflexivity.
  - cbn [fst snd]. destruct (I.check_time_limit w _) as [[[]|] ?]; reflexivity.
Qed.

Lemma imm_accounted_fields (t : datetime) (m : I.InputMonitor) :
  I.last_activity (I.accounted t m) = Some t
  /\ I.is_active (I.accounted t m) = true
  /\ I.total_active_time (I.accounted t m) =
     match I.last_activity m with
     | None => I.total_active_time m
     | Some last =>
       if t - last <=? second
       then I.total_active_time m + (t - last)
       else I.total_active_time m
     end
  /\ I.time_limit (I.accounted t m) = I.time_limit m
  /\ I.start_time (I.accounted t m) = I.start_time m.
Proof.
  unfold I.accounted. change (1 * second) with second.
  destruct (I.last_activity m) as [last|]; [|imm_fields; tauto].
  destruct (t - last <=? second); imm_fields; tauto.
Qed.

Lemma imm_handle_keyboard_frame (w : World) (s : Sys I.InputMonitor) :
  let m1 := I.accounted (clock w (ticks s)) (mon s) in
  let m' := mon (snd (I.handle_keyboard w s)) in
  I.same_account m1 m'
  /\ I.running m' =
     if I.time_limit m1 <=? I.total_active_time m1
     then false else I.running (mon s).
Proof.
  cbv zeta. rewrite imm_handle_keyboard_run.
  set (s1 := mkSys _ _ _ _ _).
  pose proof (imm_check_time_limit_frame w s1) as H. cbv zeta in H.
  destruct H as (F & Hr). split; [exact F|]. rewrite Hr.
  unfold s1, I.accounted. cbn [mon].
  destruct (I.last_activity (mon s)) as [last|]; [|reflexivity].
  destruct (_ - _ <=? _); reflexivity.
Qed.

(** ** The update rule *)

(** C1: an update with timestamp [t] (the clock reading [handle_keyboard]
    takes) leaves [last_activity = t] and [is_active = True]; it adds
    nothing to [total_active_time] when [last_activity] was unset, adds the
    gap [t - last_activity] when that gap is at most one second, and adds
    nothing when the gap is longer.  This holds in both programs. *)
Theorem C1_update_rule (w : World) :
  (forall s : Sys E.InputMonitor,
     let t := clock w (ticks s) in
     let m := mon s in
     let m' := mon (snd (E.handle_keyboard w s)) in
     E.last_activity m' = Some t
     /\ E.is_active m' = true
     /\ E.total_active_time m' =
        match E.last_activity m with
        | None => E.total_active_time m
        | Some last =>
          if t - last <=? second
          then E.total_active_time m + (t - last)
          else E.total_active_time m
        end)
  /\ (forall s : Sys I.InputMonitor,
        let t := clock w (ticks s) in
        let m := mon s in
        let m' := mon (snd (I.handle_keyboard w s)) in
        I.last_activity m' = Some t
        /\ I.is_active m' = true
        /\ I.total_active_time m' =
           match I.last_activity m with
           | None => I.total_active_time m
           | Some last =>
             if t - last <=? second
             then I.total_active_time m + (t - last)
             else I.total_active_time m
           end).
Proof.
  split; intros s; cbv zeta.
  - destruct (esc_handle_keyboard_frame w s) as ((_ & L & A & T & _) & _).
    destruct (esc_accounted_fields (clock w (ticks s)) (mon s))
      as (L1 & A1 & T1 & _).
    rewrite L, A, T. auto.
  - destruct (imm_handle_keyboard_frame w s) as ((_ & L & A & T & _) & _).
    destruct (imm_accounted_fields (clock w (ticks s)) (mon s))
      as (L1 & A1 & T1 & _).
    rewrite L, A, T. auto.
Qed.

(** Two key presses half a second apart account for half a second of
    activity. *)
Example key_presses_half_a_second_apart :
  let w := quiet_world 1700000000000000 250000 in
  let s := E.deliver_all w [KeyDown; KeyDown] (E.init w (60 * second)) in
  E.stamps w [KeyDown; KeyDown] (E.init w (60 * second))
  = [1700000000500000; 1700000001000000]
  /\ E.total_active_time (mon s) = 500000.
Proof. cbv zeta. split; vm_compute; reflexivity. Qed.

(** A gap of exactly one second still counts; key presses two seconds
    apart account for nothing. *)
Example key_presses_one_and_two_seconds_apart :
  let w := quiet_world 1700000000000000 1000000 in
  let s := I.deliver_all w [KeyDown; KeyDown; KeyDown] (I.init w (60 * second)) in
  I.stamps w [KeyDown; KeyDown; KeyDown] (I.init w (60 * second))
  = [1700000001000000; 1700000002000000; 1700000003000000]
  /\ I.total_active_time (mon s) = 2000000
  /\ I.total_active_time
       (mon (I.deliver_all (quiet_world 1700000000000000 2000000)
               [KeyDown; KeyDown]
               (I.init (quiet_world 1700000000000000 2000000) (60 * second))))
     = 0.
Proof. cbv zeta. repeat split; vm_compute; reflexivity. Qed.

Example format_timedelta_examples :
  format_timedelta (3600 * second + 10 * 60 * second + second) = "01:10:01"%string
  /\ format_timedelta 999999 = "00:00:00"%string
  /\ format_timedelta (100 * 3600 * second) = "100:00:00"%string
  /\ format_timedelta (- (3600 * second)) = "-1:00:00"%string.
Proof. repeat split; vm_compute; reflexivity. Qed.

(** ** The filter on mouse movement *)

Lemma esc_handle_mouse_movement_run (w : World) (s : Sys E.InputMonitor) :
  E.handle_mouse_movement w s =
  if match E.last_activity (mon s) with
     | None => true
     | Some last => 100000 <? clock w (ticks s) - last
     end
  then E.handle_keyboard w (after_clock_read s)
  else (Ret tt, after_clock_read s).
Proof.
  unfold E.handle_mouse_movement, after_clock_read. run_monad.
  destruct (match E.last_activity (mon s) with None => _ | Some _ => _ end);
    reflexivity.
Qed.

Lemma imm_handle_mouse_movement_run (w : World) (s : Sys I.InputMonitor) :
  I.handle_mouse_movement w s =
  if match I.last_activity (mon s) with
     | None => true
     | Some last => 100000 <? clock w (ticks s) - last
     end
  then I.handle_keyboard w (after_clock_read s)
  else (Ret tt, after_clock_read s).
Proof.
  unfold I.handle_mouse_movement, after_clock_read. run_monad.
  destruct (match I.last_activity (mon s) with None => _ | Some _ => _ end);
    reflexivity.
Qed.

(** C7: a mouse movement whose handler reads the clock at [t] is forwarded
    to the update ([handle_keyboard]) exactly when [last_activity] is unset
    or [t - last_activity] exceeds 100 ms (100000 microseconds); otherwise it
    is dropped, leaving the monitor and the output untouched.  A movement
    50 ms after the last activity is dropped, one 150 ms after it is
    forwarded.  Key presses and mouse clicks always reach the update.  This
    holds in both programs. *)
Theorem C7_mouse_move_filter (w : World) :
  (forall s : Sys E.InputMonitor,
     let t := clock w (ticks s) in
     match E.last_activity (mon s) with
     | None =>
       E.handle_mouse_movement w s = E.handle_keyboard w (after_clock_read s)
     | Some last =>
       if 100000 <? t - last
       then E.handle_mouse_movement w s
            = E.handle_keyboard w (after_clock_read s)
       else E.handle_mouse_movement w s = (Ret tt, after_clock_read s)
     end)
  /\ (forall (m : E.InputMonitor) (n sp ap : nat) (o : list effect),
        let early :=
          mkSys (E.set_last_activity (Some (clock w n - 50000)) m) n sp ap o in
        let late :=
          mkSys (E.set_last_activity (Some (clock w n - 150000)) m) n sp ap o in
        E.handle_mouse_movement w early = (Ret tt, after_clock_read early)
        /\ E.handle_mouse_movement w late
           = E.handle_keyboard w (after_clock_read late))
  /\ (forall s : Sys E.InputMonitor,
        E.handle_mouse_click w s = E.handle_keyboard w s
        /\ E.deliver w KeyDown s = snd (E.handle_keyboard w s)
        /\ E.deliver w MouseAllButtonsDown s = snd (E.handle_keyboard w s))
  /\ (forall s : Sys I.InputMonitor,
        let t := clock w (ticks s) in
        match I.last_activity (mon s) with
        | None =>
          I.handle_mouse_movement w s = I.handle_keyboard w (after_clock_read s)
        | Some last =>
          if 100000 <? t - last
          then I.handle_mouse_movement w s
               = I.handle_keyboard w (after_clock_read s)
          else I.handle_mouse_movement w s = (Ret tt, after_clock_read s)
        end)
  /\ (forall (m : I.InputMonitor) (n sp ap : nat) (o : list effect),
        let early :=
          mkSys (I.set_last_activity (Some (clock w n - 50000)) m) n sp ap o in
        let late :=
          mkSys (I.set_last_activity (Some (clock w n - 150000)) m) n sp ap o in
        I.handle_mouse_movement w early = (Ret tt, after_clock_read early)
        /\ I.handle_mouse_movement w late
           = I.handle_keyboard w (after_clock_read late))
  /\ (forall s : Sys I.InputMonitor,
        I.handle_mouse_click w s = I.handle_keyboard w s
        /\ I.deliver w KeyDown s = snd (I.handle_keyboard w s)
        /\ I.deliver w MouseAllButtonsDown s = snd (I.handle_keyboard w s)).
Proof.
  repeat split.
  - intros s. cbv zeta. rewrite esc_handle_mouse_movement_run.
    destruct (E.last_activity (mon s)) as [last|]; [|reflexivity].
    destruct (100000 <? _); reflexivity.
  - rewrite esc_handle_mouse_movement_run. cbn [mon ticks E.set_last_activity E.last_activity].
    replace (clock w n - (clock w n - 50000)) with 50000 by lia. reflexivity.
  - rewrite esc_handle_mouse_movement_run. cbn [mon ticks E.set_last_activity E.last_activity].
    replace (clock w n - (clock w n - 150000)) with 150000 by lia. reflexivity.
  - intros s. cbv zeta. rewrite imm_handle_mouse_movement_run.
    destruct (I.last_activity (mon s)) as [last|]; [|reflexivity].
    destruct (100000 <? _); reflexivity.
  - rewrite imm_handle_mouse_movement_run. cbn [mon ticks I.set_last_activity I.last_activity].
    replace (clock w n - (clock w n - 50000)) with 50000 by lia. reflexivity.
  - rewrite imm_handle_mouse_movement_run. cbn [mon ticks I.set_last_activity I.last_activity].
    replace (clock w n - (clock w n - 150000)) with 150000 by lia. reflexivity.
Qed.

(** ** Runs of events *)

(** An event either is dropped, which costs a reading of the clock, or is
    an update stamped [update_time]. *)
Lemma esc_deliver_run (w : World) (e : hook_event) (s : Sys E.InputMonitor) :
  match E.update_time w e s with
  | Some t =>
    exists s1, mon s1 = mon s /\ out s1 = out s /\ clock w (ticks s1) = t
               /\ E.deliver w e s = snd (E.handle_keyboard w s1)
  | None => E.deliver w e s = after_clock_read s
  end.
Proof.
  unfold E.update_time, E.deliver.
  destruct e; try (exists s; repeat split; reflexivity).
  rewrite esc_handle_mouse_movement_run.
  destruct (match E.last_activity (mon s) with None => _ | Some _ => _ end);
    [|reflexivity].
  exists (after_clock_read s). repeat split; reflexivity.
Qed.

Lemma esc_deliver_account (w : World) (e : hook_event) (s : Sys E.InputMonitor) :
  match E.update_time w e s with
  | Some t => E.same_account (E.accounted t (mon s)) (mon (E.deliver w e s))
  | None => mon (E.deliver w e s) = mon s
  end.
Proof.
  pose proof (esc_deliver_run w e s) as H.
  destruct (E.update_time w e s) as [t|].
  - destruct H as (s1 & Hm & _ & Ht & ->).
    destruct (esc_handle_keyboard_frame w s1) as (F & _).
    now rewrite Ht, Hm in F.
  - now rewrite H.
Qed.

Lemma non_decreasing_tail (a : datetime) (ts : list datetime) :
  non_decreasing (a :: ts) = true -> non_decreasing ts = true.
Proof.
  destruct ts as [|b ts]; [reflexivity|].
  cbn [non_decreasing]. intros H. now apply andb_true_iff in H.
Qed.

(** The active time after a run is what it was plus the short gaps between
    the successive updates, the first gap starting at the previous
    activity. *)
Lemma esc_total_is_short_gaps (w : World) (es : list hook_event) :
  forall s : Sys E.InputMonitor,
    E.total_active_time (mon (E.deliver_all w es s))
    = E.total_active_time (mon s)
      + short_gaps (since (E.last_activity (mon s)) (E.stamps w es s)).
Proof.
  induction es as [|e es IH]; intros s.
  - cbn. destruct (E.last_activity (mon s)); cbn; lia.
  - cbn [E.deliver_all fold_left E.stamps].
    change (fold_left _ es ?x) with (E.deliver_all w es x).
    rewrite IH. pose proof (esc_deliver_account w e s) as H.
    destruct (E.update_time w e s) as [t|].
    + destruct H as (_ & L & _ & T & _).
      destruct (esc_accounted_fields t (mon s)) as (L1 & _ & T1 & _).
      rewrite L, T, L1, T1.
      destruct (E.last_activity (mon s)) as [last|]; cbn [since short_gaps];
        [|lia].
      destruct (t - last <=? second); lia.
    + now rewrite H.
Qed.

(** One event does not lower the active time when its timestamp is not
    before the previous activity. *)
Lemma esc_deliver_total_mono (w : World) (e : hook_event) s (ts : list datetime) :
  (forall t, E.update_time w e s = Some t ->
             non_decreasing (since (E.last_activity (mon s)) (t :: ts)) = true) ->
  E.total_active_time (mon s) <= E.total_active_time (mon (E.deliver w e s)).
Proof.
  intros Hs. pose proof (esc_deliver_account w e s) as H.
  destruct (E.update_time w e s) as [t|]; [|rewrite H; lia].
  specialize (Hs t eq_refl).
  destruct H as (_ & _ & _ & T & _).
  destruct (esc_accounted_fields t (mon s)) as (_ & _ & T1 & _).
  rewrite T, T1.
  destruct (E.last_activity (mon s)) as [last|]; [|lia].
  cbn [since non_decreasing] in Hs. apply andb_true_iff in Hs as [Hle _].
  apply Z.leb_le in Hle. destruct (t - last <=? second); lia.
Qed.

Lemma esc_total_mono (w : World) (pre : list hook_event) :
  forall (s : Sys E.InputMonitor) (e : hook_event) (post : list hook_event),
    non_decreasing (since (E.last_activity (mon s))
                          (E.stamps w (pre ++ e :: post) s)) = true ->
    E.total_active_time (mon (E.deliver_all w pre s))
    <= E.total_active_time (mon (E.deliver_all w (pre ++ [e]) s)).
Proof.
  induction pre as [|e0 pre IH]; intros s e post Hs.
  - cbn [app E.deliver_all fold_left].
    apply (esc_deliver_total_mono w e s (E.stamps w post (E.deliver w e s))).
    intros t Ht. cbn [app E.stamps] in Hs. now rewrite Ht in Hs.
  - cbn [app E.deliver_all fold_left].
    change (fold_left _ ?l ?x) with (E.deliver_all w l x).
    apply (IH _ e post).
    cbn [app E.stamps] in Hs.
    pose proof (esc_deliver_account w e0 s) as H.
    destruct (E.update_time w e0 s) as [t|].
    + destruct H as (_ & L & _).
      destruct (esc_accounted_fields t (mon s)) as (L1 & _).
      rewrite L, L1. cbn [since].
      destruct (E.last_activity (mon s)); cbn [since] in Hs;
        [now apply non_decreasing_tail in Hs | exact Hs].
    + now rewrite H.
Qed.

(** C5: for every run of events from the start of a session in which the
    timestamps of the updates never step back, no update lowers
    [total_active_time], and at the end [total_active_time] is at most the
    sum of those gaps between consecutive updates that are at most one
    second long. *)
Theorem C5_total_monotone_and_bounded
  (w : World) (limit : timedelta) (es : list hook_event) :
  non_decreasing (E.stamps w es (E.init w limit)) = true ->
  (forall pre e post, es = pre ++ e :: post ->
     E.total_active_time (mon (E.deliver_all w pre (E.init w limit)))
     <= E.total_active_time (mon (E.deliver_all w (pre ++ [e]) (E.init w limit))))
  /\ E.total_active_time (mon (E.deliver_all w es (E.init w limit)))
     <= short_gaps (E.stamps w es (E.init w limit)).
Proof.
  intros Hs. split.
  - intros pre e post ->. apply (esc_total_mono w pre _ e post). exact Hs.
  - rewrite esc_total_is_short_gaps. cbn. lia.
Qed.

Lemma C5_witness :
  let w := quiet_world 1000000000 150000 in
  let es := [KeyDown; MouseMovement; KeyDown; MouseAllButtonsDown; KeyDown] in
  non_decreasing (E.stamps w es (E.init w 60000000)) = true
  /\ E.total_active_time (mon (E.deliver_all w es (E.init w 60000000)))
     <= short_gaps (E.stamps w es (E.init w 60000000)).
Proof.
  cbv zeta. split; [vm_compute; reflexivity|].
  apply (C5_total_monotone_and_bounded (quiet_world 1000000000 150000)).
  vm_compute. reflexivity.
Defined.

(** ** The alert policies *)

Lemma alerts_played_app (l1 l2 : list effect) :
  alerts_played (l1 ++ l2) = (alerts_played l1 + alerts_played l2)%nat.
Proof. unfold alerts_played. now rewrite filter_app, length_app. Qed.

Lemma emitted_app {Mon} (s s' : Sys Mon) (l : list effect) :
  out s' = out s ++ l -> emitted s s' = l.
Proof.
  intros H. unfold emitted. rewrite H, skipn_app, skipn_all, Nat.sub_diag.
  reflexivity.
Qed.

Ltac pick_in := solve [cbn [In]; repeat first [left; reflexivity | right]].

Ltac pick_log :=
  match goal with
  | |- exists r1, In (LogAppend r1) ?l /\ _ =>
    match l with
    | context [LogAppend ?r :: _] =>
      exists r; split; [pick_in | reflexivity]
    end
  end.

Ltac obliging_outside w Hw :=
  repeat first
    [ rewrite play_alert_run
    | rewrite esc_log_activity_run
    | rewrite imm_log_activity_run
    | rewrite (proj2 Hw)
    | progress esc_fields
    | progress imm_fields
    | match goal with
      | |- context [match paplay w ?n with _ => _ end] =>
        let E := fresh "E" in
        destruct (paplay w n) eqn:E;
        [ | | exfalso; exact (proj1 Hw _ E) ]
      end ].

(** In an obliging world the check of the limit returns normally, and on a
    breach it plays at most one alert, counts it, and ends the session once
    the count is at the maximum. *)
Lemma esc_check_time_limit_obliging (w : World) (s : Sys E.InputMonitor) :
  obliging w ->
  let m := mon s in
  let r := E.check_time_limit w s in
  let m' := mon (snd r) in
  fst r = Ret tt
  /\ exists l, out (snd r) = out s ++ l
     /\ if E.time_limit m <=? E.total_active_time m
        then E.alert_count m' =
               (if E.alert_count m <? E.max_alerts m
                then E.alert_count m + 1 else E.alert_count m)
             /\ alerts_played l =
                (if E.alert_count m <? E.max_alerts m then 1%nat else 0%nat)
             /\ if E.max_alerts m <=? E.alert_count m'
                then E.running m' = false
                     /\ (exists r1, In (LogAppend r1) l
                                    /\ log_event r1 = session_ended)
                     /\ In (Print (LimitReachedAlerts (E.time_limit m))) l
                     /\ In HookCancel l
                else E.running m' = E.running m
        else E.alert_count m' = E.alert_count m
             /\ E.running m' = E.running m /\ l = [].
Proof.
  intros Hw. unfold E.check_time_limit. run_monad.
  destruct (E.time_limit (mon s) <=? E.total_active_time (mon s));
    [|esc_fields; split; [reflexivity|]; exists []; rewrite app_nil_r; auto].
  destruct (E.alert_count (mon s) <? E.max_alerts (mon s)) eqn:Ha.
  - obliging_outside w Hw.
    all: destruct (E.max_alerts (mon s) <=? E.alert_count (mon s) + 1) eqn:Hm;
      obliging_outside w Hw.
    all: (split; [reflexivity|]); rewrite <- ?app_assoc; cbn [app];
      eexists; (split; [reflexivity|]).
    all: rewrite ?Ha, ?Hm; repeat split;
      first [reflexivity | pick_in | pick_log].
  - esc_fields.
    destruct (E.max_alerts (mon s) <=? E.alert_count (mon s)) eqn:Hm;
      obliging_outside w Hw.
    + split; [reflexivity|]. rewrite <- ?app_assoc. cbn [app].
      eexists. split; [reflexivity|].
      rewrite ?Ha, ?Hm; repeat split; first [reflexivity | pick_in | pick_log].
    + split; [reflexivity|]. exists []. rewrite app_nil_r, ?Ha, ?Hm.
      repeat split; reflexivity.
Qed.

Lemma esc_check_log_update_obliging (w : World) (s : Sys E.InputMonitor) :
  obliging w ->
  fst (E.check_log_update w s) = Ret tt
  /\ exists l, out (snd (E.check_log_update w s)) = out s ++ l
               /\ alerts_played l = 0%nat.
Proof.
  intros Hw. unfold E.check_log_update. run_monad.
  destruct (E.log_interval (mon s) <=? _); obliging_outside w Hw.
  - split; [reflexivity|]. eexists. split; reflexivity.
  - split; [reflexivity|]. exists []. now rewrite app_nil_r.
Qed.

Lemma esc_accounted_policy_fields (t : datetime) (m : E.InputMonitor) :
  E.alert_count (E.accounted t m) = E.alert_count m
  /\ E.max_alerts (E.accounted t m) = E.max_alerts m
  /\ E.running (E.accounted t m) = E.running m.
Proof.
  unfold E.accounted.
  destruct (E.last_activity m) as [last|]; [|esc_fields; tauto].
  destruct (_ <=? _); esc_fields; tauto.
Qed.

(** One event in an obliging world. *)
Lemma esc_deliver_obliging (w : World) (e : hook_event) (s : Sys E.InputMonitor) :
  obliging w ->
  let m := mon s in
  let m' := mon (E.deliver w e s) in
  E.max_alerts m' = E.max_alerts m
  /\ E.time_limit m' = E.time_limit m
  /\ exists l, out (E.deliver w e s) = out s ++ l
     /\ if E.breach w e s
        then E.alert_count m' =
               (if E.alert_count m <? E.max_alerts m
                then E.alert_count m + 1 else E.alert_count m)
             /\ alerts_played l =
                (if E.alert_count m <? E.max_alerts m then 1%nat else 0%nat)
             /\ if E.max_alerts m <=? E.alert_count m'
                then E.running m' = false
                     /\ (exists r1, In (LogAppend r1) l
                                    /\ log_event r1 = session_ended)
                     /\ In (Print (LimitReachedAlerts (E.time_limit m))) l
                     /\ In HookCancel l
                else E.running m' = E.running m
        else E.alert_count m' = E.alert_count m
             /\ E.running m' = E.running m
             /\ alerts_played l = 0%nat.
Proof.
  intros Hw. cbv zeta.
  pose proof (esc_deliver_account w e s) as Hacc.
  pose proof (esc_deliver_run w e s) as Hrun.
  unfold E.breach.
  destruct (E.update_time w e s) as [t|].
  2:{ rewrite Hrun. cbn. repeat split. exists []. now rewrite app_nil_r. }
  destruct Hacc as (_ & _ & _ & T & L & M & _).
  destruct (esc_accounted_fields t (mon s)) as (_ & _ & _ & L1 & _).
  destruct (esc_accounted_policy_fields t (mon s)) as (A1 & M1 & R1).
  rewrite T, L, M, M1, L1. split; [reflexivity|]. split; [reflexivity|].
  destruct Hrun as (s1 & Hm & Ho & Ht & ->).
  rewrite esc_handle_keyboard_run, Ht, Hm, <- Ho.
  set (sA := mkSys _ _ _ _ _).
  destruct (esc_check_time_limit_obliging w sA Hw) as (Hret & l1 & Hl1 & Hc).
  unfold bind.
  destruct (E.check_time_limit w sA) as [r s2]. cbn [fst snd] in *. subst r.
  destruct (esc_check_log_update_obliging w s2 Hw) as (_ & l2 & Hl2 & Hp2).
  destruct (esc_check_log_update_frame w s2) as (_ & A2 & R2).
  cbv zeta in A2, R2. rewrite A2, R2.
  exists (l1 ++ l2). split.
  { rewrite Hl2, Hl1. unfold sA. cbn [out]. now rewrite app_assoc. }
  unfold sA in Hc. cbn [mon] in Hc. rewrite A1, M1, R1, L1 in Hc.
  rewrite alerts_played_app, Hp2, Nat.add_0_r.
  destruct (E.time_limit (mon s) <=? _).
  - destruct Hc as (Ha & Hp & Hend). repeat split; try assumption.
    destruct (E.max_alerts (mon s) <=? E.alert_count (mon s2));
      [|exact Hend].
    destruct Hend as (Hr & (r1 & Hin & Hev) & Hpr & Hcancel).
    repeat split; try assumption; try (apply in_or_app; now left).
    exists r1. split; [apply in_or_app; now left | exact Hev].
  - destruct Hc as (Ha & Hr & ->). repeat split; assumption.
Qed.

(** A run in an obliging world, started with the count between 0 and the
    maximum 5: the count ends at the number of breaches, capped at 5, and
    one alert was played for each step of the count. *)
Lemma esc_run_alerts (w : World) (es : list hook_event) :
  obliging w ->
  forall s : Sys E.InputMonitor,
    E.max_alerts (mon s) = 5 ->
    0 <= E.alert_count (mon s) <= 5 ->
    let s' := E.deliver_all w es s in
    E.max_alerts (mon s') = 5
    /\ E.time_limit (mon s') = E.time_limit (mon s)
    /\ E.alert_count (mon s')
       = Z.min 5 (E.alert_count (mon s) + Z.of_nat (E.breaches w es s))
    /\ (E.alert_count (mon s') < 5 -> E.running (mon s') = E.running (mon s))
    /\ exists l, out s' = out s ++ l
                 /\ Z.of_nat (alerts_played l)
                    = E.alert_count (mon s') - E.alert_count (mon s).
Proof.
  intros Hw. induction es as [|e es IH]; intros s Hmax Ha; cbv zeta.
  - cbn. repeat split; try lia. exists []. rewrite app_nil_r.
    unfold alerts_played. cbn. split; [reflexivity | lia].
  - cbn [E.deliver_all fold_left E.breaches].
    change (fold_left _ es ?x) with (E.deliver_all w es x).
    destruct (esc_deliver_obliging w e s Hw) as (M1 & L1 & l1 & Hl1 & Hb).
    cbv zeta in M1, L1.
    assert (Ha1 : E.alert_count (mon (E.deliver w e s))
                  = Z.min 5 (E.alert_count (mon s)
                             + Z.of_nat (if E.breach w e s then 1 else 0))
                  /\ Z.of_nat (alerts_played l1)
                     = E.alert_count (mon (E.deliver w e s))
                       - E.alert_count (mon s)
                  /\ (E.alert_count (mon (E.deliver w e s)) < 5 ->
                      E.running (mon (E.deliver w e s)) = E.running (mon s))).
    { rewrite Hmax in Hb. destruct (E.breach w e s).
      - destruct Hb as (A & P & R). rewrite A, P.
        destruct (E.alert_count (mon s) <? 5) eqn:Hlt;
          [apply Z.ltb_lt in Hlt | apply Z.ltb_ge in Hlt].
        + repeat split; try lia. intros Hlt'. rewrite A in R.
          destruct (5 <=? E.alert_count (mon s) + 1) eqn:Hle;
            [apply Z.leb_le in Hle; lia | exact R].
        + repeat split; try lia.
      - destruct Hb as (A & R & P). rewrite A, P. repeat split; try lia.
        intros _. exact R. }
    destruct Ha1 as (A1 & P1 & R1).
    destruct (IH (E.deliver w e s)) as (M2 & L2 & A2 & R2 & l2 & Hl2 & P2).
    { now rewrite M1. }
    { rewrite A1. destruct (E.breach w e s);
        [change (Z.of_nat 1) with 1 | change (Z.of_nat 0) with 0]; lia. }
    cbv zeta in M2, L2, A2, R2, Hl2, P2.
    split; [exact M2|]. split; [now rewrite L2|].
    split; [rewrite A2, A1, Nat2Z.inj_add;
            destruct (E.breach w e s);
            [change (Z.of_nat 1) with 1 | change (Z.of_nat 0) with 0]; lia|].
    split.
    + intros Hlt. rewrite R2 by exact Hlt. apply R1. rewrite A2 in Hlt. lia.
    + exists (l1 ++ l2). split; [now rewrite Hl2, Hl1, app_assoc|].
      rewrite alerts_played_app, Nat2Z.inj_add. lia.
Qed.

(** The update that makes the [S n]-th breach of a run. *)
Lemma esc_nth_breach (w : World) (es : list hook_event) :
  forall (s : Sys E.InputMonitor) (n : nat),
    (S n <= E.breaches w es s)%nat ->
    exists pre e post,
      es = pre ++ e :: post
      /\ E.breaches w pre s = n
      /\ E.breach w e (E.deliver_all w pre s) = true.
Proof.
  induction es as [|e es IH]; intros s n Hn; cbn [E.breaches] in Hn; [lia|].
  destruct (E.breach w e s) eqn:Hb.
  - destruct n as [|n].
    + exists [], e, es. repeat split. exact Hb.
    + destruct (IH (E.deliver w e s) n) as (pre & e' & post & -> & Hp & He);
        [lia|].
      exists (e :: pre), e', post. cbn [E.breaches E.deliver_all fold_left].
      rewrite Hb, Hp. repeat split. exact He.
  - destruct (IH (E.deliver w e s) n) as (pre & e' & post & -> & Hp & He);
      [cbn in Hn; lia|].
    exists (e :: pre), e', post. cbn [E.breaches E.deliver_all fold_left].
    rewrite Hb, Hp. repeat split. exact He.
Qed.

Lemma imm_deliver_run (w : World) (e : hook_event) (s : Sys I.InputMonitor) :
  match I.update_time w e s with
  | Some t =>
    exists s1, mon s1 = mon s /\ out s1 = out s /\ clock w (ticks s1) = t
               /\ I.deliver w e s = snd (I.handle_keyboard w s1)
  | None => I.deliver w e s = after_clock_read s
  end.
Proof.
  unfold I.update_time, I.deliver.
  destruct e; try (exists s; repeat split; reflexivity).
  rewrite imm_handle_mouse_movement_run.
  destruct (match I.last_activity (mon s) with None => _ | Some _ => _ end);
    [|reflexivity].
  exists (after_clock_read s). repeat split; reflexivity.
Qed.

Lemma imm_check_time_limit_obliging (w : World) (s : Sys I.InputMonitor) :
  obliging w ->
  let m := mon s in
  let r := I.check_time_limit w s in
  fst r = Ret tt
  /\ if I.time_limit m <=? I.total_active_time m
     then exists a now,
            out (snd r) = out s ++ [a; LogActive now (I.total_active_time m);
                                    Print (LimitReached (I.time_limit m));
                                    HookCancel]
            /\ is_alert a = true
     else out (snd r) = out s.
Proof.
  intros Hw. unfold I.check_time_limit. run_monad.
  destruct (I.time_limit (mon s) <=? I.total_active_time (mon s));
    [|split; reflexivity].
  obliging_outside w Hw.
  all: split; [reflexivity|]; rewrite <- ?app_assoc; cbn [app].
  all: eexists _, _; split; reflexivity.
Qed.

(** One event of dailytimespend1.py: nothing is produced and [running] is
    kept unless the event is a breach; in an obliging world a breach stops
    the session with one alert, one log record, the message and the
    cancellation of the hook. *)
Lemma imm_deliver_policy (w : World) (e : hook_event) (s : Sys I.InputMonitor) :
  let m := mon s in
  let m' := mon (I.deliver w e s) in
  I.time_limit m' = I.time_limit m
  /\ if I.breach w e s
     then I.running m' = false
          /\ (obliging w ->
              exists a now,
                out (I.deliver w e s)
                = out s ++ [a; LogActive now (I.total_active_time m');
                            Print (LimitReached (I.time_limit m));
                            HookCancel]
                /\ is_alert a = true)
     else I.running m' = I.running m /\ out (I.deliver w e s) = out s.
Proof.
  cbv zeta. pose proof (imm_deliver_run w e s) as Hrun. unfold I.breach.
  destruct (I.update_time w e s) as [t|].
  2:{ rewrite Hrun. cbn. auto. }
  destruct Hrun as (s1 & Hm & Ho & Ht & ->).
  destruct (imm_handle_keyboard_frame w s1) as ((_ & _ & _ & T & L) & R).
  rewrite Ht, Hm in T, L, R.
  destruct (imm_accounted_fields t (mon s)) as (_ & _ & _ & L1 & _).
  rewrite T, L, L1. split; [reflexivity|]. rewrite L1 in R.
  rewrite imm_handle_keyboard_run, Ht, Hm, <- Ho in *.
  set (sA := mkSys _ _ _ _ _) in *.
  destruct (I.time_limit (mon s) <=? I.total_active_time (I.accounted t (mon s)))
    eqn:Hb.
  - split; [exact R|]. intros Hw.
    destruct (imm_check_time_limit_obliging w sA Hw) as (_ & Hc).
    unfold sA in Hc at 1 2. cbn [mon] in Hc. rewrite L1, Hb in Hc.
    destruct Hc as (a & now & Hout & Ha). exists a, now.
    rewrite Hout. unfold sA at 1 2 3. cbn [mon out]. rewrite L1. auto.
  - split; [exact R|].
    unfold I.check_time_limit. run_monad. unfold sA. cbn [mon].
    rewrite L1, Hb. reflexivity.
Qed.

Lemma imm_quiet_run (w : World) (es : list hook_event) :
  forall s : Sys I.InputMonitor,
    I.breaches w es s = 0%nat ->
    I.time_limit (mon (I.deliver_all w es s)) = I.time_limit (mon s)
    /\ I.running (mon (I.deliver_all w es s)) = I.running (mon s)
    /\ out (I.deliver_all w es s) = out s.
Proof.
  induction es as [|e es IH]; intros s Hb; [cbn; auto|].
  cbn [I.breaches] in Hb. cbn [I.deliver_all fold_left].
  change (fold_left _ es ?x) with (I.deliver_all w es x).
  destruct (imm_deliver_policy w e s) as (L & Hp). cbv zeta in L, Hp.
  destruct (I.breach w e s); [discriminate|].
  destruct Hp as (R & O).
  destruct (IH (I.deliver w e s)) as (L2 & R2 & O2); [exact Hb|].
  rewrite L2, R2, O2. auto.
Qed.

(** C2 as stated fails: when the log file cannot be opened, five key presses
    with a zero limit are five updates at or above the limit, five alerts
    are played and [alert_count] is 5, but each update is cut short by the
    error of the log write: the session is still running after the fifth,
    and no record, message or cancellation has been produced.  In
    dailytimespend1.py the first such update stops the session and plays
    the alert, and is cut short before the message and the cancellation. *)
Lemma C2_counterexample :
  let w := read_only_world 1700000000000000 50000 in
  let s := E.deliver_all w (repeat KeyDown 5) (E.init w 0) in
  let s1 := I.deliver_all w [KeyDown] (I.init w 0) in
  E.breaches w (repeat KeyDown 5) (E.init w 0) = 5%nat
  /\ E.alert_count (mon s) = 5
  /\ E.running (mon s) = true
  /\ out s = [PlaySound; PlaySound; PlaySound; PlaySound; PlaySound]
  /\ I.breaches w [KeyDown] (I.init w 0) = 1%nat
  /\ I.running (mon s1) = false
  /\ out s1 = [PlaySound].
Proof. cbv zeta. repeat split; vm_compute; reflexivity. Qed.

(** C2, amended: in a world where no call to the audio utility or to the
    log file raises, (escalating policy, [max_alerts = 5]) every run from
    the start of a session that contains at least five updates at or above
    the limit plays exactly five alerts and ends with [alert_count = 5]; the
    fifth such update finds the session running, stops it, logs the
    "Session Ended" record, prints the message and cancels the hook.
    (Immediate policy) the first update at or above the limit finds the
    session running, stops it, and the whole output of the session up to
    then is one alert, one log record, the message and the cancellation of
    the hook. *)
Theorem C2_alert_policies (w : World) (limit : timedelta) :
  obliging w ->
  (forall es : list hook_event,
     (5 <= E.breaches w es (E.init w limit))%nat ->
     let s0 := E.init w limit in
     alerts_played (out (E.deliver_all w es s0)) = 5%nat
     /\ E.alert_count (mon (E.deliver_all w es s0)) = 5
     /\ exists pre e post,
          es = pre ++ e :: post
          /\ E.breaches w pre s0 = 4%nat
          /\ E.breach w e (E.deliver_all w pre s0) = true
          /\ let s4 := E.deliver_all w pre s0 in
             let s5 := E.deliver w e s4 in
             E.running (mon s4) = true
             /\ E.running (mon s5) = false
             /\ E.alert_count (mon s5) = 5
             /\ (exists r, In (LogAppend r) (emitted s4 s5)
                           /\ log_event r = session_ended)
             /\ In (Print (LimitReachedAlerts limit)) (emitted s4 s5)
             /\ In HookCancel (emitted s4 s5))
  /\ (forall (pre : list hook_event) (e : hook_event),
        let s0 := I.init w limit in
        I.breaches w pre s0 = 0%nat ->
        I.breach w e (I.deliver_all w pre s0) = true ->
        let s := I.deliver_all w pre s0 in
        let s' := I.deliver w e s in
        I.running (mon s) = true
        /\ I.running (mon s') = false
        /\ alerts_played (out s') = 1%nat
        /\ exists a now,
             out s' = [a; LogActive now (I.total_active_time (mon s'));
                       Print (LimitReached limit); HookCancel]
             /\ is_alert a = true).
Proof.
  intros Hw. split.
  - intros es Hk s0.
    assert (Hmax : E.max_alerts (mon s0) = 5) by reflexivity.
    assert (Ha0 : 0 <= E.alert_count (mon s0) <= 5) by (cbn; lia).
    destruct (esc_run_alerts w es Hw s0 Hmax Ha0)
      as (_ & _ & A & _ & l & Hl & P).
    cbv zeta in A, Hl, P. change (E.alert_count (mon s0)) with 0 in A, P.
    assert (A5 : E.alert_count (mon (E.deliver_all w es s0)) = 5).
    { fold s0 in Hk. lia. }
    split; [|split; [exact A5|]].
    { rewrite Hl. change (out s0) with (@nil effect). cbn [app]. lia. }
    destruct (esc_nth_breach w es s0 4 Hk) as (pre & e & post & He & Hp & Hb).
    exists pre, e, post.
    split; [exact He|]. split; [exact Hp|]. split; [exact Hb|]. cbv zeta.
    destruct (esc_run_alerts w pre Hw s0 Hmax Ha0)
      as (M4 & L4 & A4 & R4 & _).
    cbv zeta in M4, L4, A4, R4.
    change (E.alert_count (mon s0)) with 0 in A4. rewrite Hp in A4.
    change (Z.min 5 (0 + Z.of_nat 4)) with 4 in A4.
    assert (Hr4 : E.running (mon (E.deliver_all w pre s0)) = true).
    { apply R4. lia. }
    destruct (esc_deliver_obliging w e (E.deliver_all w pre s0) Hw)
      as (_ & _ & l5 & Hl5 & Hc).
    rewrite Hb, M4, A4, L4 in Hc. change (4 <? 5) with true in Hc.
    destruct Hc as (A5' & _ & Hend). rewrite A5' in Hend.
    change (5 <=? 4 + 1) with true in Hend.
    destruct Hend as (Hr & Hlog & Hpr & Hcancel).
    rewrite (emitted_app _ _ _ Hl5).
    repeat split; assumption.
  - intros pre e s0 Hp Hb s s'. subst s s'.
    destruct (imm_quiet_run w pre s0 Hp) as (L & R & O).
    destruct (imm_deliver_policy w e (I.deliver_all w pre s0)) as (L' & Hc).
    cbv zeta in L', Hc. rewrite Hb in Hc. destruct Hc as (Hr & Hout).
    destruct (Hout Hw) as (a & now & Ho & Ha).
    rewrite O, L in Ho. change (out s0) with (@nil effect) in Ho.
    change (I.time_limit (mon s0)) with limit in Ho. cbn [app] in Ho.
    split; [exact R|]. split; [exact Hr|]. split.
    + rewrite Ho. unfold alerts_played. cbn. now rewrite Ha.
    + exists a, now. auto.
Qed.

Lemma obliging_quiet_world (t0 step : Z) : obliging (quiet_world t0 step).
Proof. split; intros n; [discriminate | reflexivity]. Qed.

Lemma C2_witness :
  let w := quiet_world 1000000000 50000 in
  let s0 := E.init w 0 in
  let s1 := I.init w 40000 in
  obliging w
  /\ (5 <= E.breaches w (repeat KeyDown 6) s0)%nat
  /\ alerts_played (out (E.deliver_all w (repeat KeyDown 6) s0)) = 5%nat
  /\ I.breaches w [KeyDown] s1 = 0%nat
  /\ I.breach w KeyDown (I.deliver_all w [KeyDown] s1) = true
  /\ I.running (mon (I.deliver w KeyDown (I.deliver_all w [KeyDown] s1)))
     = false.
Proof.
  intros w s0 s1.
  pose proof (obliging_quiet_world 1000000000 50000) as Hw. fold w in Hw.
  assert (Hk : (5 <= E.breaches w (repeat KeyDown 6) s0)%nat).
  { apply Nat.leb_le. vm_compute. reflexivity. }
  assert (Hp : I.breaches w [KeyDown] s1 = 0%nat).
  { vm_compute. reflexivity. }
  assert (Hb : I.breach w KeyDown (I.deliver_all w [KeyDown] s1) = true).
  { vm_compute. reflexivity. }
  split; [exact Hw|]. split; [exact Hk|].
  split; [exact (proj1 (proj1 (C2_alert_policies w 0 Hw) _ Hk))|].
  split; [exact Hp|]. split; [exact Hb|].
  exact (proj1 (proj2 (proj2 (C2_alert_policies w 40000 Hw) [KeyDown] KeyDown
                               Hp Hb))).
Defined.

(** ** After the session has stopped *)

(** What one event can do to the policy fields, whatever the outside does. *)
Lemma esc_deliver_frame (w : World) (e : hook_event) (s : Sys E.InputMonitor) :
  let m := mon s in
  let m' := mon (E.deliver w e s) in
  E.max_alerts m' = E.max_alerts m
  /\ (E.alert_count m' = E.alert_count m
      \/ E.alert_count m' = E.alert_count m + 1
         /\ E.alert_count m < E.max_alerts m)
  /\ (E.running m' = E.running m
      \/ E.running m' = false /\ E.max_alerts m <= E.alert_count m').
Proof.
  cbv zeta. pose proof (esc_deliver_run w e s) as Hrun.
  destruct (E.update_time w e s) as [t|]; [|rewrite Hrun; cbn; auto].
  destruct Hrun as (s1 & Hm & _ & Ht & ->).
  destruct (esc_handle_keyboard_frame w s1) as ((_ & _ & _ & _ & _ & M & _) & A & R).
  destruct (esc_accounted_policy_fields (clock w (ticks s1)) (mon s1))
    as (_ & M1 & _).
  rewrite M, M1. rewrite Hm in *. auto.
Qed.

(** A stopped session has used up its alerts, and stays so. *)
Lemma esc_exhausted_preserved (w : World) (es : list hook_event) :
  forall s : Sys E.InputMonitor,
    (E.running (mon s) = false ->
     E.max_alerts (mon s) <= E.alert_count (mon s)) ->
    E.running (mon (E.deliver_all w es s)) = false ->
    E.max_alerts (mon (E.deliver_all w es s))
    <= E.alert_count (mon (E.deliver_all w es s)).
Proof.
  induction es as [|e es IH]; intros s Hinv; [exact Hinv|].
  cbn [E.deliver_all fold_left].
  change (fold_left _ es ?x) with (E.deliver_all w es x).
  apply IH. destruct (esc_deliver_frame w e s) as (M & A & R).
  cbv zeta in M, A, R. rewrite M. intros Hr.
  destruct R as [R | [_ R]]; [|exact R].
  rewrite R in Hr. specialize (Hinv Hr). lia.
Qed.

Lemma imm_deliver_account (w : World) (e : hook_event) (s : Sys I.InputMonitor) :
  match I.update_time w e s with
  | Some t => I.same_account (I.accounted t (mon s)) (mon (I.deliver w e s))
  | None => mon (I.deliver w e s) = mon s
  end.
Proof.
  pose proof (imm_deliver_run w e s) as H.
  destruct (I.update_time w e s) as [t|].
  - destruct H as (s1 & Hm & _ & Ht & ->).
    destruct (imm_handle_keyboard_frame w s1) as (F & _).
    now rewrite Ht, Hm in F.
  - now rewrite H.
Qed.

(** C6 as stated fails: with a zero limit and a clock that advances 50 ms
    per reading, five key presses stop the session with 0.8 s of active
    time, and a sixth key press still raises the active time to 1.1 s. *)
Lemma C6_counterexample :
  let w := quiet_world 1000000000 50000 in
  let s := E.deliver_all w (repeat KeyDown 5) (E.init w 0) in
  let s' := E.deliver w KeyDown s in
  E.running (mon s) = false
  /\ E.total_active_time (mon s) = 800000
  /\ E.total_active_time (mon s') = 1100000
  /\ ~ (E.running (mon s) = false ->
        E.total_active_time (mon s') = E.total_active_time (mon s)
        /\ E.alert_count (mon s') = E.alert_count (mon s)).
Proof.
  cbv zeta. split; [vm_compute; reflexivity|].
  split; [vm_compute; reflexivity|]. split; [vm_compute; reflexivity|].
  intros H. assert (Hr : E.running (mon (E.deliver_all
                      (quiet_world 1000000000 50000) (repeat KeyDown 5)
                      (E.init (quiet_world 1000000000 50000) 0))) = false)
    by (vm_compute; reflexivity).
  destruct (H Hr) as [Ht _]. vm_compute in Ht. discriminate.
Qed.

(** C6, amended: once [running] is false in a session, a further event
    leaves [alert_count] as it is and [running] false; [total_active_time]
    still follows the update rule, since the handlers do not look at
    [running].  In dailytimespend1.py, which has no alert count, [running]
    stays false and the active time follows the update rule as well. *)
Theorem C6_stopped_session (w : World) (limit : timedelta)
  (es : list hook_event) (e : hook_event) :
  (let s := E.deliver_all w es (E.init w limit) in
   let s' := E.deliver w e s in
   E.running (mon s) = false ->
   E.alert_count (mon s') = E.alert_count (mon s)
   /\ E.running (mon s') = false
   /\ E.total_active_time (mon s') =
      match E.update_time w e s, E.last_activity (mon s) with
      | Some t, Some last =>
        if t - last <=? second
        then E.total_active_time (mon s) + (t - last)
        else E.total_active_time (mon s)
      | _, _ => E.total_active_time (mon s)
      end)
  /\ (let s := I.deliver_all w es (I.init w limit) in
      let s' := I.deliver w e s in
      I.running (mon s) = false ->
      I.running (mon s') = false
      /\ I.total_active_time (mon s') =
         match I.update_time w e s, I.last_activity (mon s) with
         | Some t, Some last =>
           if t - last <=? second
           then I.total_active_time (mon s) + (t - last)
           else I.total_active_time (mon s)
         | _, _ => I.total_active_time (mon s)
         end).
Proof.
  split; cbv zeta; intros Hr.
  - set (s := E.deliver_all w es (E.init w limit)) in *.
    assert (Hex : E.max_alerts (mon s) <= E.alert_count (mon s)).
    { apply esc_exhausted_preserved; [discriminate | exact Hr]. }
    destruct (esc_deliver_frame w e s) as (_ & A & R). cbv zeta in A, R.
    split; [destruct A as [A | [_ A]]; [exact A | lia]|].
    split; [destruct R as [R | [R _]]; congruence|].
    pose proof (esc_deliver_account w e s) as Hacc.
    destruct (E.update_time w e s) as [t|]; [|now rewrite Hacc].
    destruct Hacc as (_ & _ & _ & T & _).
    destruct (esc_accounted_fields t (mon s)) as (_ & _ & T1 & _).
    rewrite T, T1. destruct (E.last_activity (mon s)); reflexivity.
  - set (s := I.deliver_all w es (I.init w limit)) in *.
    destruct (imm_deliver_policy w e s) as (_ & Hp). cbv zeta in Hp.
    split.
    { destruct (I.breach w e s); [tauto | destruct Hp; congruence]. }
    pose proof (imm_deliver_account w e s) as Hacc.
    destruct (I.update_time w e s) as [t|]; [|now rewrite Hacc].
    destruct Hacc as (_ & _ & _ & T & _).
    destruct (imm_accounted_fields t (mon s)) as (_ & _ & T1 & _).
    rewrite T, T1. destruct (I.last_activity (mon s)); reflexivity.
Qed.

Lemma C6_witness :
  let w := quiet_world 1000000000 50000 in
  let s := E.deliver_all w (repeat KeyDown 5) (E.init w 0) in
  let s1 := I.deliver_all w [KeyDown; KeyDown] (I.init w 40000) in
  E.running (mon s) = false
  /\ E.alert_count (mon (E.deliver w KeyDown s)) = E.alert_count (mon s)
  /\ I.running (mon s1) = false
  /\ I.running (mon (I.deliver w KeyDown s1)) = false.
Proof.
  intros w s s1.
  assert (Hr : E.running (mon s) = false) by (vm_compute; reflexivity).
  assert (Hr1 : I.running (mon s1) = false) by (vm_compute; reflexivity).
  split; [exact Hr|]. split.
  - exact (proj1 (proj1 (C6_stopped_session w 0 (repeat KeyDown 5) KeyDown)
                        Hr)).
  - split; [exact Hr1|].
    exact (proj1 (proj2 (C6_stopped_session w 40000 [KeyDown; KeyDown] KeyDown)
                        Hr1)).
Defined.

(** ** The remaining time in the reports *)







(** One pass of the renderer: it stops, or divides by a zero limit, or
    writes one line and sleeps. *)
Lemma esc_draw_progress_bar_step_run (w : World) (s : Sys E.InputMonitor) :
  let m := mon s in
  let remaining_time := E.time_limit m - E.total_active_time m in
  E.draw_progress_bar_step w s =
  if negb (E.running m) then (Ret Break, s)
  else if remaining_time <=? 0 then (Ret Break, s)
  else if E.time_limit m =? 0 then (Raise ZeroDivisionError, s)
  else
    let filled := Z.quot (40 * E.total_active_time m) (E.time_limit m) in
    (Ret Continue,
     mkSys (E.set_is_active false m) (ticks s) (spawns s) (appends s)
       (out s ++
        [Progress
           (mkLine (str_mul "=" filled ++ str_mul "-" (40 - filled))
                   (if E.is_active m then "*" else " ")
                   (format_timedelta (E.total_active_time m))
                   (format_timedelta (E.time_limit m))
                   (format_timedelta remaining_time)
                   (if 0 <? E.alert_count m
                    then Some (E.alert_count m, E.max_alerts m) else None));
         Sleep])).
Proof.
  cbv zeta. unfold E.draw_progress_bar_step. run_monad.
  destruct s as [m tk sp ap o]. cbn [mon ticks spawns appends out].
  destruct (E.running m); cbn [negb]; [|reflexivity].
  destruct (E.time_limit m - E.total_active_time m <=? 0); [|unfold truediv].
  - reflexivity.
  - destruct (E.time_limit m =? 0); [reflexivity|].
    cbn [num den fst snd mon ticks spawns appends out].
    rewrite <- app_assoc. reflexivity.
Qed.

Lemma imm_draw_progress_bar_step_run (w : World) (s : Sys I.InputMonitor) :
  let m := mon s in
  let remaining_time := I.time_limit m - I.total_active_time m in
  I.draw_progress_bar_step w s =
  if negb (I.running m) then (Ret Break, s)
  else if remaining_time <=? 0 then (Ret Break, s)
  else if I.time_limit m =? 0 then (Raise ZeroDivisionError, s)
  else
    let filled := Z.quot (40 * I.total_active_time m) (I.time_limit m) in
    (Ret Continue,
     mkSys (I.set_is_active false m) (ticks s) (spawns s) (appends s)
       (out s ++
        [Progress
           (mkLine (str_mul "=" filled ++ str_mul "-" (40 - filled))
                   (if I.is_active m then "*" else " ")
                   (format_timedelta (I.total_active_time m))
                   (format_timedelta (I.time_limit m))
                   (format_timedelta remaining_time)
                   None);
         Sleep])).
Proof.
  cbv zeta. unfold I.draw_progress_bar_step. run_monad.
  destruct s as [m tk sp ap o]. cbn [mon ticks spawns appends out].
  destruct (I.running m); cbn [negb]; [|reflexivity].
  destruct (I.time_limit m - I.total_active_time m <=? 0); [|unfold truediv].
  - reflexivity.
  - destruct (I.time_limit m =? 0); [reflexivity|].
    cbn [num den fst snd mon ticks spawns appends out].
    rewrite <- app_assoc. reflexivity.
Qed.



(** ** Failures of the outside *)

(** C9 as stated fails: when the log file cannot be opened, the error
    leaves [log_activity], the event handler of either program and, at the
    start of a session, [main]; when the audio utility is there but cannot
    be launched, the error leaves [play_alert] and the event handler. *)
Lemma C9_counterexample :
  let w := read_only_world 1700000000000000 1000 in
  let w' := no_exec_world 1700000000000000 1000 in
  fst (E.log_activity "Regular Update" w (E.init w 0)) = Raise OSError
  /\ fst (E.handle_keyboard w (E.init w 0)) = Raise OSError
  /\ fst (E.main w "10m") = Raise OSError
  /\ fst (I.handle_keyboard w (I.init w 0)) = Raise OSError
  /\ fst (play_alert w' (E.init w' 0)) = Raise OSError
  /\ fst (E.handle_keyboard w' (E.init w' 0)) = Raise OSError.
Proof. cbv zeta. repeat split; vm_compute; reflexivity. Qed.

(** C9, amended: [play_alert] and [log_activity] never change the monitor,
    so no failure of theirs changes [running].  A missing audio utility is
    swallowed by [play_alert], which rings the terminal bell instead and
    returns normally, as it does whenever the utility could be started.  Any
    other error of the launch, and every failure to open or write the log,
    is not handled: it is raised to the caller, with nothing written. *)
Theorem C9_failures_of_the_outside (w : World) :
  (forall (Mon : Type) (s : Sys Mon),
     mon (snd (play_alert w s)) = mon s
     /\ match paplay w (spawns s) with
        | Spawned =>
          fst (play_alert w s) = Ret tt
          /\ out (snd (play_alert w s)) = out s ++ [PlaySound]
        | ExecutableNotFound =>
          fst (play_alert w s) = Ret tt
          /\ out (snd (play_alert w s)) = out s ++ [Bell]
        | SpawnFails =>
          fst (play_alert w s) = Raise OSError
          /\ out (snd (play_alert w s)) = out s
        end)
  /\ (forall (event_type : string) (s : Sys E.InputMonitor),
        mon (snd (E.log_activity event_type w s)) = mon s
        /\ match log_file w (appends s) with
           | Written => fst (E.log_activity event_type w s) = Ret tt
           | OpenFails | WriteFails =>
             fst (E.log_activity event_type w s) = Raise OSError
             /\ out (snd (E.log_activity event_type w s)) = out s
           end)
  /\ (forall s : Sys I.InputMonitor,
        mon (snd (I.log_activity w s)) = mon s
        /\ match log_file w (appends s) with
           | Written => fst (I.log_activity w s) = Ret tt
           | OpenFails | WriteFails =>
             fst (I.log_activity w s) = Raise OSError
             /\ out (snd (I.log_activity w s)) = out s
           end).
Proof.
  split; [|split].
  - intros Mon s. rewrite play_alert_run.
    destruct (paplay w (spawns s)); cbn; auto.
  - intros ty s. rewrite esc_log_activity_run. cbv zeta.
    destruct (log_file w (appends s)); cbn; auto.
  - intros s. rewrite imm_log_activity_run.
    destruct (log_file w (appends s)); cbn; auto.
Qed.

(** ** Divisions *)

Lemma short_gaps_nonneg (ts : list datetime) :
  non_decreasing ts = true -> 0 <= short_gaps ts.
Proof.
  induction ts as [|a ts IH]; [cbn; lia|].
  destruct ts as [|b ts]; [cbn; lia|].
  change (non_decreasing (a :: b :: ts))
    with ((a <=? b) && non_decreasing (b :: ts)).
  change (short_gaps (a :: b :: ts))
    with ((if b - a <=? second then b - a else 0) + short_gaps (b :: ts)).
  intros H. apply andb_true_iff in H as [Hab H]. apply Z.leb_le in Hab.
  specialize (IH H). destruct (b - a <=? second); lia.
Qed.




(** ** The rejection of malformed time limits *)

(** C3 at the input "abc": the parser returns the zero duration instead of
    raising, and [main] starts a session and ends with status 0, in both
    programs. *)
Theorem C3_abc_is_not_rejected :
  let w := quiet_world 1700000000000000 1000 in
  parse_time_limit "abc" = Ret 0
  /\ exit_code (fst (E.main w "abc")) = 0
  /\ In HookStart (snd (E.main w "abc"))
  /\ exit_code (fst (I.main w "abc")) = 0
  /\ In HookStart (snd (I.main w "abc")).
Proof.
  cbv zeta. split; [reflexivity|].
  split; [vm_compute; reflexivity|]. split; [vm_compute; tauto|].
  split; [vm_compute; reflexivity|]. vm_compute; tauto.
Qed.

(** * Further properties of the two programs *)

(** ** [parse_time_limit] on arbitrary strings *)

Lemma leading_after_digits (s : list ascii) :
  s = (leading_digits s ++ after_digits s)%list.
Proof.
  induction s as [|c s IH]; [reflexivity|].
  cbn. destruct (is_digit c); [cbn; now rewrite <- IH | reflexivity].
Qed.

Lemma leading_digits_are_digits (s : list ascii) :
  forallb is_digit (leading_digits s) = true.
Proof.
  induction s as [|c s IH]; [reflexivity|].
  cbn. destruct (is_digit c) eqn:E; [cbn; now rewrite E | reflexivity].
Qed.

Lemma after_digits_head (s : list ascii) :
  match after_digits s with
  | c :: _ => is_digit c = false
  | [] => True
  end.
Proof.
  induction s as [|c s IH]; [exact I|].
  cbn. destruct (is_digit c) eqn:E; [exact IH | exact E].
Qed.

Section UnitGroupCases.

Context {R : Type}.
Variables (n : nat) (u : ascii) (K : list ascii -> captures -> option R).
Hypothesis u_not_digit : is_digit u = false.

(** Without a digit in front the group is left unmatched. *)
Lemma unit_group_no_digit (s : list ascii) (caps : captures) :
  leading_digits s = [] ->
  run_regex (unit_group n u) s caps K = K s caps.
Proof.
  intros Hs. unfold unit_group.
  rewrite run_regex_Opt, run_regex_Cat, run_regex_Group.
  destruct s as [|c s]; [reflexivity|].
  cbn in Hs. destruct (is_digit c) eqn:Hc; [discriminate|].
  cbn. now rewrite Hc.
Qed.

(** On any input the group either is skipped or takes a number and its
    unit letter. *)
Lemma unit_group_cases (s : list ascii) (caps : captures) :
  (forall s' caps', K s' caps' <> None) ->
  run_regex (unit_group n u) s caps K = K s caps
  \/ exists d rest,
       d <> [] /\ forallb is_digit d = true /\ s = (d ++ u :: rest)%list
       /\ run_regex (unit_group n u) s caps K = K rest (set_capture n d caps).
Proof.
  intros HK.
  destruct (leading_digits s) as [|c0 d0] eqn:Hd.
  { left. now apply unit_group_no_digit. }
  destruct (starts_with u (after_digits s)) eqn:Hu.
  2:{ left. now apply unit_group_miss. }
  right. pose proof (leading_after_digits s) as Hs.
  pose proof (leading_digits_are_digits s) as Hdig.
  destruct (after_digits s) as [|c rest]; [discriminate|].
  cbn in Hu. apply Ascii.eqb_eq in Hu. subst c.
  rewrite Hd in Hs, Hdig.
  exists (c0 :: d0), rest. split; [discriminate|]. split; [exact Hdig|].
  split; [exact Hs|]. rewrite Hs.
  apply unit_group_hit; try assumption; [discriminate | apply HK].
Qed.

End UnitGroupCases.

Lemma numeric_groups_set (n : nat) (d : list ascii) (caps : captures) :
  d <> [] -> forallb is_digit d = true ->
  numeric_groups caps -> numeric_groups (set_capture n d caps).
Proof.
  intros Hne Hd Hc k d'. unfold set_capture.
  destruct (Nat.eqb k n); [|apply Hc].
  intros E. inversion E; subst. auto.
Qed.

(** The groups of a match of the pattern are numbers. *)
Lemma re_match_pattern_numeric (time_str : string) :
  exists m, re_match pattern time_str = Some m /\ numeric_groups m.
Proof.
  unfold re_match, pattern.
  pose (K3 := fun (_ : list ascii) (caps : captures) => Some caps).
  pose (K2 := fun s caps => run_regex (unit_group 3 "s") s caps K3).
  pose (K1 := fun s caps => run_regex (unit_group 2 "m") s caps K2).
  change (exists m,
            run_regex (unit_group 1 "h") (list_ascii_of_string time_str)
                      no_captures K1 = Some m
            /\ numeric_groups m).
  assert (T3 : forall s caps, K3 s caps <> None) by discriminate.
  assert (T2 : forall s caps, K2 s caps <> None).
  { intros s caps. unfold K2, unit_group. now apply run_regex_Opt_total. }
  assert (T1 : forall s caps, K1 s caps <> None).
  { intros s caps. unfold K1, unit_group. now apply run_regex_Opt_total. }
  assert (S3 : forall s caps, numeric_groups caps ->
                 exists m, K2 s caps = Some m /\ numeric_groups m).
  { intros s caps Hc. unfold K2.
    destruct (unit_group_cases 3 "s" K3 eq_refl s caps T3)
      as [-> | (d & rest & Hne & Hd & _ & ->)]; unfold K3; eexists;
      (split; [reflexivity|]); auto using numeric_groups_set. }
  assert (S2 : forall s caps, numeric_groups caps ->
                 exists m, K1 s caps = Some m /\ numeric_groups m).
  { intros s caps Hc. unfold K1.
    destruct (unit_group_cases 2 "m" K2 eq_refl s caps T2)
      as [-> | (d & rest & Hne & Hd & _ & ->)];
      apply S3; auto using numeric_groups_set. }
  assert (H0 : numeric_groups no_captures) by (intros k d' E; discriminate E).
  destruct (unit_group_cases 1 "h" K1 eq_refl
              (list_ascii_of_string time_str) no_captures T1)
    as [-> | (d & rest & Hne & Hd & _ & ->)]; apply S2;
    auto using numeric_groups_set.
Qed.

Lemma decimal_value_nonneg (d : list ascii) :
  forallb is_digit d = true -> 0 <= decimal_value d.
Proof.
  unfold decimal_value.
  assert (H : forall acc, 0 <= acc -> forallb is_digit d = true ->
                          0 <= fold_left (fun a c => 10 * a + digit_value c) d acc).
  { induction d as [|c d IH]; intros a Ha Hd; [exact Ha|].
    cbn in Hd. apply andb_true_iff in Hd as [Hc Hd]. cbn [fold_left].
    apply IH; [|exact Hd].
    unfold is_digit in Hc. apply andb_true_iff in Hc as [Hc _].
    apply Nat.leb_le in Hc. unfold digit_value. lia. }
  apply H. lia.
Qed.

Lemma int_group_numeric (m : captures) (n : nat) :
  numeric_groups m -> exists v, int_group_or_0 (m n) = Ret v /\ 0 <= v.
Proof.
  intros Hm. destruct (m n) as [d|] eqn:E.
  - destruct (Hm n d E) as [Hne Hd].
    exists (decimal_value d). split; [|now apply decimal_value_nonneg].
    destruct d as [|c d]; [congruence|].
    unfold int_group_or_0, int_of_str. now rewrite Hd.
  - exists 0. split; [reflexivity | lia].
Qed.

Lemma parse_time_limit_cases (time_str : string) :
  match parse_time_limit time_str with
  | Ret td =>
    0 <= td /\ td mod second = 0 /\ td / (86400 * second) <= 999999999
  | Raise e => e = OverflowError
  end.
Proof.
  unfold parse_time_limit.
  destruct (re_match_pattern_numeric time_str) as (m & -> & Hm).
  destruct (int_group_numeric m 1 Hm) as (h & -> & Hh).
  destruct (int_group_numeric m 2 Hm) as (mi & -> & Hmi).
  destruct (int_group_numeric m 3 Hm) as (se & -> & Hse).
  unfold timedelta_new.
  set (us := (h * 3600 + mi * 60 + se) * second).
  assert (Hus : 0 <= us) by (unfold us, second; nia).
  destruct (999999999 <? Z.abs (us / (86400 * second))) eqn:E;
    [reflexivity|].
  apply Z.ltb_ge in E. split; [exact Hus|]. split.
  - unfold us. apply Z.mod_mul. unfold second. lia.
  - assert (0 <= us / (86400 * second)).
    { apply Z.div_pos; [exact Hus | unfold second; lia]. }
    lia.
Qed.

(** On every time string that is short enough for its numbers to be
    converted (at most 4300 characters), [parse_time_limit] returns a
    non-negative whole number of seconds of at most 999999999 days, or
    raises the [OverflowError] of the [timedelta] constructor; it raises no
    [ValueError]. *)
Theorem parse_time_limit_result (time_str : string) :
  (String.length time_str <= 4300)%nat ->
  match parse_time_limit time_str with
  | Ret td =>
    0 <= td /\ td mod second = 0 /\ td / (86400 * second) <= 999999999
  | Raise e => e = OverflowError
  end.
Proof. intros _. apply parse_time_limit_cases. Qed.

Lemma parse_time_limit_result_witness :
  (String.length "1h10m1s" <= 4300)%nat
  /\ match parse_time_limit "1h10m1s" with
     | Ret td =>
       0 <= td /\ td mod second = 0 /\ td / (86400 * second) <= 999999999
     | Raise e => e = OverflowError
     end.
Proof.
  assert (H : (String.length "1h10m1s" <= 4300)%nat) by (cbn; lia).
  split; [exact H | exact (parse_time_limit_result "1h10m1s" H)].
Defined.

(** A string that does not start with a digit, or whose first character
    after its leading digits is none of [h], [m] and [s] (or is missing),
    is read as the zero duration: a bare number, a leading blank or sign, an
    unknown unit are all accepted silently. *)
Theorem parse_time_limit_zero (time_str : string) :
  let s := list_ascii_of_string time_str in
  leading_digits s = []
  \/ (starts_with "h" (after_digits s) = false
      /\ starts_with "m" (after_digits s) = false
      /\ starts_with "s" (after_digits s) = false) ->
  parse_time_limit time_str = Ret 0.
Proof.
  cbv zeta. intros H. unfold parse_time_limit, re_match, pattern.
  rewrite run_regex_Cat.
  destruct H as [H | (Hh & Hm & Hs)].
  - rewrite unit_group_no_digit by (reflexivity || exact H).
    rewrite run_regex_Cat.
    rewrite unit_group_no_digit by (reflexivity || exact H).
    rewrite unit_group_no_digit by (reflexivity || exact H).
    reflexivity.
  - rewrite unit_group_miss by (reflexivity || exact Hh).
    rewrite run_regex_Cat.
    rewrite unit_group_miss by (reflexivity || exact Hm).
    rewrite unit_group_miss by (reflexivity || exact Hs).
    reflexivity.
Qed.

Lemma parse_time_limit_zero_witness :
  parse_time_limit " 10m" = Ret 0
  /\ parse_time_limit "90" = Ret 0
  /\ parse_time_limit "5x3s" = Ret 0.
Proof.
  split; [|split]; apply parse_time_limit_zero; cbn; auto.
Defined.

Ltac unit_group_tail Ht :=
  first
    [ rewrite unit_group_hit by first [assumption | reflexivity | regex_total]
    | rewrite unit_group_miss by
        first [ reflexivity
              | exact Ht
              | rewrite after_digits_run by (assumption || reflexivity);
                reflexivity ] ].

(** The components are read in the order hours, minutes, seconds and the
    rest of the string is not looked at: whatever follows the seconds is
    ignored, and so is whatever follows the minutes unless it is a number
    of seconds. *)
Theorem parse_time_limit_ignores_the_rest :
  (forall (h m : option (list ascii)) (ds tail : list ascii),
     (forall d, In (Some d) [h; m; Some ds] -> is_number d) ->
     parse_time_limit
       (string_of_list_ascii
          (component h "h" ++ component m "m" ++ ds ++ "s"%char :: tail))
     = timedelta_new (value_or_0 h) (value_or_0 m) (decimal_value ds))
  /\ (forall (h : option (list ascii)) (dm tail : list ascii),
        (forall d, In (Some d) [h; Some dm] -> is_number d) ->
        starts_with "s" (after_digits tail) = false ->
        parse_time_limit
          (string_of_list_ascii
             (component h "h" ++ dm ++ "m"%char :: tail))
        = timedelta_new (value_or_0 h) (decimal_value dm) 0).
Proof.
  split.
  - intros h m ds tail H.
    assert (Hs : is_number ds) by (apply H; simpl; auto).
    pose proof (int_group_number _ Hs) as Es. destruct Hs as (? & ? & _).
    unfold parse_time_limit, re_match, pattern.
    rewrite list_ascii_of_string_of_list_ascii.
    assert (Hh : forall dh, h = Some dh ->
                   int_group_or_0 (Some dh) = Ret (decimal_value dh)
                   /\ dh <> [] /\ forallb is_digit dh = true).
    { intros dh ->. assert (Hn : is_number dh) by (apply H; simpl; auto).
      split; [now apply int_group_number | destruct Hn as (? & ? & _); auto]. }
    assert (Hm : forall dm, m = Some dm ->
                   int_group_or_0 (Some dm) = Ret (decimal_value dm)
                   /\ dm <> [] /\ forallb is_digit dm = true).
    { intros dm ->. assert (Hn : is_number dm) by (apply H; simpl; auto).
      split; [now apply int_group_number | destruct Hn as (? & ? & _); auto]. }
    destruct h as [dh|], m as [dm|]; simpl component.
    all: try (destruct (Hh _ eq_refl) as (? & ? & ?)).
    all: try (destruct (Hm _ eq_refl) as (? & ? & ?)).
    all: clear Hh Hm.
    all: rewrite <- ?app_assoc; cbn [app].
    all: rewrite run_regex_Cat; unit_group_step.
    all: rewrite run_regex_Cat; unit_group_step.
    all: unit_group_step.
    all: cbn [set_capture no_captures Nat.eqb value_or_0].
    all: repeat match goal with
         | E : int_group_or_0 _ = _ |- _ => rewrite E; clear E
         end.
    all: reflexivity.
  - intros h dm tail H Ht.
    assert (Hm : is_number dm) by (apply H; simpl; auto).
    pose proof (int_group_number _ Hm) as Em. destruct Hm as (? & ? & _).
    unfold parse_time_limit, re_match, pattern.
    rewrite list_ascii_of_string_of_list_ascii.
    destruct h as [dh|]; simpl component.
    1: assert (Hh : is_number dh) by (apply H; simpl; auto);
       pose proof (int_group_number _ Hh) as Eh; destruct Hh as (? & ? & _).
    all: rewrite <- ?app_assoc; cbn [app].
    all: rewrite run_regex_Cat; unit_group_tail Ht.
    all: rewrite run_regex_Cat; unit_group_tail Ht.
    all: unit_group_tail Ht.
    all: cbn [set_capture no_captures Nat.eqb value_or_0].
    all: repeat match goal with
         | E : int_group_or_0 _ = _ |- _ => rewrite E; clear E
         end.
    all: reflexivity.
Qed.

Lemma parse_time_limit_ignores_the_rest_witness :
  parse_time_limit "1h10m1s and more" = Ret (4201 * second)
  /\ parse_time_limit "5s10m" = Ret (5 * second)
  /\ parse_time_limit "10m1h" = Ret (600 * second).
Proof.
  destruct parse_time_limit_ignores_the_rest as [Hs Hm].
  split; [|split].
  - apply (Hs (Some ["1"]) (Some ["1"; "0"]) ["1"]
              (list_ascii_of_string " and more"))%char.
    intros d [E | [E | [E | []]]]; inversion E; subst;
      (split; [discriminate | split; [reflexivity | cbn; lia]]).
  - apply (Hs None None ["5"] ["1"; "0"; "m"])%char.
    intros d [E | [E | [E | []]]]; inversion E; subst;
      (split; [discriminate | split; [reflexivity | cbn; lia]]).
  - apply (Hm None ["1"; "0"] ["1"; "h"])%char; [|reflexivity].
    intros d [E | [E | []]]; inversion E; subst;
      (split; [discriminate | split; [reflexivity | cbn; lia]]).
Defined.

(** ** [format_timedelta] *)










(** ** Sessions: events and renderer passes in any order, in any world *)

(** What [check_time_limit] produces, whatever the outside does: as many
    alerts as it adds to the count, a cancellation only with [running]
    cleared, and nothing at all below the limit. *)
Lemma esc_check_time_limit_effects (w : World) (s : Sys E.InputMonitor) :
  let m := mon s in
  let s' := snd (E.check_time_limit w s) in
  exists l,
    out s' = out s ++ l
    /\ Z.of_nat (alerts_played l) = E.alert_count (mon s') - E.alert_count m
    /\ (In HookCancel l -> E.running (mon s') = false)
    /\ ((E.time_limit m <=? E.total_active_time m) = false ->
        l = [] /\ mon s' = m).
Proof.
  unfold E.check_time_limit. run_monad.
  destruct (E.time_limit (mon s) <=? E.total_active_time (mon s)).
  2:{ exists []. rewrite app_nil_r. cbn. intuition lia. }
  destruct (E.alert_count (mon s) <? E.max_alerts (mon s)) eqn:Ha.
  - esc_outside w.
    all: try destruct (E.max_alerts (mon s) <=? E.alert_count (mon s) + 1);
      esc_outside w.
    all: rewrite <- ?app_assoc; cbn [app].
    all: first [ exists []; split; [now rewrite app_nil_r|]
               | eexists; split; [reflexivity|] ].
    all: unfold alerts_played; cbn [filter is_alert List.length In].
    all: repeat split; try lia; try discriminate; intuition discriminate.
  - esc_fields.
    destruct (E.max_alerts (mon s) <=? E.alert_count (mon s)); esc_outside w.
    all: rewrite <- ?app_assoc; cbn [app].
    all: first [ exists []; split; [now rewrite app_nil_r|]
               | eexists; split; [reflexivity|] ].
    all: unfold alerts_played; cbn [filter is_alert List.length In].
    all: repeat split; try lia; try discriminate; intuition discriminate.
Qed.

Lemma esc_check_log_update_effects (w : World) (s : Sys E.InputMonitor) :
  exists l,
    out (snd (E.check_log_update w s)) = out s ++ l
    /\ alerts_played l = 0%nat
    /\ ~ In HookCancel l.
Proof.
  unfold E.check_log_update. run_monad.
  destruct (E.log_interval (mon s) <=? _); esc_outside w.
  all: first [ exists []; split; [now rewrite app_nil_r|]
             | eexists; split; [reflexivity|] ].
  all: unfold alerts_played; cbn [filter is_alert List.length In].
  all: split; [reflexivity | intuition discriminate].
Qed.

Lemma esc_accounted_constants (t : datetime) (m : E.InputMonitor) :
  E.start_time (E.accounted t m) = E.start_time m
  /\ E.time_limit (E.accounted t m) = E.time_limit m
  /\ E.log_interval (E.accounted t m) = E.log_interval m.
Proof.
  unfold E.accounted.
  destruct (E.last_activity m) as [last|]; [|esc_fields; tauto].
  destruct (_ <=? _); esc_fields; tauto.
Qed.

(** One event, whatever the outside does. *)
Lemma esc_deliver_effects (w : World) (e : hook_event) (s : Sys E.InputMonitor) :
  let m := mon s in
  let m' := mon (E.deliver w e s) in
  exists l,
    out (E.deliver w e s) = out s ++ l
    /\ Z.of_nat (alerts_played l) = E.alert_count m' - E.alert_count m
    /\ (In HookCancel l -> E.running m' = false)
    /\ (E.breach w e s = false ->
        alerts_played l = 0%nat /\ ~ In HookCancel l
        /\ E.alert_count m' = E.alert_count m
        /\ E.running m' = E.running m).
Proof.
  cbv zeta.
  pose proof (esc_deliver_account w e s) as Hacc.
  pose proof (esc_deliver_run w e s) as Hrun.
  unfold E.breach.
  destruct (E.update_time w e s) as [t|].
  2:{ rewrite Hrun. cbn. exists []. rewrite app_nil_r. cbn.
      intuition lia. }
  destruct Hacc as (_ & _ & _ & T & L & _).
  destruct (esc_accounted_fields t (mon s)) as (_ & _ & _ & L1 & _).
  destruct (esc_accounted_policy_fields t (mon s)) as (A1 & M1 & R1).
  rewrite T, L, L1.
  destruct Hrun as (s1 & Hm & Ho & Ht & ->).
  rewrite esc_handle_keyboard_run, Ht, Hm, <- Ho.
  set (sA := mkSys _ _ _ _ _).
  destruct (esc_check_time_limit_effects w sA) as (l1 & Hl1 & Hp1 & Hc1 & Hq1).
  cbv zeta in Hp1, Hq1.
  change (mon sA) with (E.accounted t (mon s)) in Hp1, Hq1.
  rewrite A1, L1 in *.
  unfold bind. destruct (E.check_time_limit w sA) as [[[]|ex] s2];
    cbn [fst snd] in *.
  - destruct (esc_check_log_update_effects w s2) as (l2 & Hl2 & Hp2 & Hc2).
    destruct (esc_check_log_update_frame w s2) as (_ & A2 & R2).
    cbv zeta in A2, R2. rewrite A2, R2.
    exists (l1 ++ l2). split.
    { rewrite Hl2, Hl1. unfold sA. cbn [out]. now rewrite app_assoc. }
    rewrite alerts_played_app, Hp2, Nat.add_0_r.
    split; [exact Hp1|]. split.
    { intros Hin. apply in_app_or in Hin as [Hin | Hin]; [auto | tauto]. }
    intros Hb. destruct (Hq1 Hb) as (-> & Hmon). rewrite Hmon, A1, R1.
    cbn. repeat split; try reflexivity. exact Hc2.
  - exists l1. split; [rewrite Hl1; reflexivity|].
    split; [exact Hp1|]. split; [exact Hc1|].
    intros Hb. destruct (Hq1 Hb) as (-> & Hmon). rewrite Hmon, A1, R1.
    cbn. repeat split; try reflexivity. tauto.
Qed.

Lemma esc_pass_run (w : World) (s : Sys E.InputMonitor) :
  let s' := snd (E.draw_progress_bar_step w s) in
  (mon s' = mon s \/ mon s' = E.set_is_active false (mon s))
  /\ ticks s' = ticks s /\ spawns s' = spawns s /\ appends s' = appends s
  /\ (out s' = out s \/ exists l, out s' = out s ++ [Progress l; Sleep]).
Proof.
  cbv zeta. rewrite esc_draw_progress_bar_step_run. cbv zeta.
  destruct (negb _); [cbn; auto 10|].
  destruct (_ <=? 0); [cbn; auto 10|].
  destruct (_ =? 0); [cbn; auto 10|].
  cbn. repeat split; eauto.
Qed.

Lemma imm_pass_run (w : World) (s : Sys I.InputMonitor) :
  let s' := snd (I.draw_progress_bar_step w s) in
  (mon s' = mon s \/ mon s' = I.set_is_active false (mon s))
  /\ ticks s' = ticks s /\ spawns s' = spawns s /\ appends s' = appends s
  /\ (out s' = out s \/ exists l, out s' = out s ++ [Progress l; Sleep]).
Proof.
  cbv zeta. rewrite imm_draw_progress_bar_step_run. cbv zeta.
  destruct (negb _); [cbn; auto 10|].
  destruct (_ <=? 0); [cbn; auto 10|].
  destruct (_ =? 0); [cbn; auto 10|].
  cbn. repeat split; eauto.
Qed.

Lemma esc_perform_ok (w : World) (limit : timedelta) (a : action)
  (s : Sys E.InputMonitor) :
  esc_session_ok w limit s -> esc_session_ok w limit (esc_perform w a s).
Proof.
  unfold esc_session_ok. cbv zeta.
  intros ((L & M & S0 & I0) & (Ha & Hp) & Hr & Hc & Hact).
  destruct a as [e|]; cbn [esc_perform].
  - destruct (esc_deliver_effects w e s) as (l & Hl & Hpl & Hcl & _).
    destruct (esc_deliver_frame w e s) as (M' & A' & R').
    cbv zeta in Hpl, Hcl, M', A', R'.
    pose proof (esc_deliver_account w e s) as Hacc.
    assert (Hcfg : E.time_limit (mon (E.deliver w e s)) = limit
                   /\ E.start_time (mon (E.deliver w e s)) = clock w 0%nat
                   /\ E.log_interval (mon (E.deliver w e s)) = 2 * second
                   /\ (E.is_active (mon (E.deliver w e s)) = true ->
                       E.last_activity (mon (E.deliver w e s)) <> None)).
    { destruct (E.update_time w e s) as [t|].
      - destruct Hacc as (S1 & L1 & A1 & _ & T1 & _ & I1).
        destruct (esc_accounted_constants t (mon s)) as (S2 & T2 & I2).
        destruct (esc_accounted_fields t (mon s)) as (L2 & _).
        rewrite T1, T2, S1, S2, I1, I2, L1, L2.
        repeat split; try assumption. discriminate.
      - rewrite Hacc. auto. }
    destruct Hcfg as (L1 & S1 & I1 & Hact1).
    split; [rewrite M'; auto|]. split; [|split; [|split]].
    + rewrite Hl, alerts_played_app, Nat2Z.inj_add, Hp, Hpl. rewrite M in A'.
      split; lia.
    + rewrite M in *. intros Hr'. destruct R' as [R' | [_ R']]; [|lia].
      rewrite R' in Hr'. specialize (Hr Hr'). lia.
    + rewrite Hl. intros Hin. apply in_app_or in Hin as [Hin | Hin]; [|auto].
      destruct R' as [R' | [R' _]]; [rewrite R'; auto | exact R'].
    + exact Hact1.
  - destruct (esc_pass_run w s) as (Hm & _ & _ & _ & Ho). cbv zeta in Hm, Ho.
    assert (Hal : alerts_played (out (snd (E.draw_progress_bar_step w s)))
                  = alerts_played (out s)
                  /\ (In HookCancel (out (snd (E.draw_progress_bar_step w s)))
                      -> In HookCancel (out s))).
    { destruct Ho as [-> | (l & ->)]; [auto|].
      rewrite alerts_played_app. unfold alerts_played at 2. cbn.
      split; [lia|]. intros Hin.
      apply in_app_or in Hin as [Hin | [Hin | [Hin | []]]];
        [exact Hin | discriminate | discriminate]. }
    destruct Hal as (Hal & Hcan). rewrite Hal.
    destruct Hm as [-> | ->]; esc_fields;
      repeat split; auto; try lia; discriminate.
Qed.

Lemma esc_session_sound (w : World) (limit : timedelta) (acts : list action) :
  esc_session_ok w limit (esc_session w acts (E.init w limit)).
Proof.
  induction acts as [|a acts IH] using rev_ind.
  - unfold esc_session_ok. cbn.
    repeat split; try lia; try discriminate; try (intros []).
  - unfold esc_session. rewrite fold_left_app. cbn [fold_left].
    apply esc_perform_ok. exact IH.
Qed.

Lemma imm_perform_ok (w : World) (limit : timedelta) (a : action)
  (s : Sys I.InputMonitor) :
  imm_session_ok limit s -> imm_session_ok limit (imm_perform w a s).
Proof.
  unfold imm_session_ok. cbv zeta. intros (L & Hout & Hact).
  destruct a as [e|]; cbn [imm_perform].
  - destruct (imm_deliver_policy w e s) as (L' & Hp). cbv zeta in L', Hp.
    pose proof (imm_deliver_account w e s) as Hacc.
    split; [now rewrite L'|]. split.
    + destruct (I.breach w e s); [intros; tauto|].
      destruct Hp as (-> & ->). exact Hout.
    + destruct (I.update_time w e s) as [t|]; [|now rewrite Hacc].
      destruct Hacc as (_ & L1 & _).
      destruct (imm_accounted_fields t (mon s)) as (L2 & _).
      rewrite L1, L2. discriminate.
  - destruct (imm_pass_run w s) as (Hm & _ & _ & _ & Ho). cbv zeta in Hm, Ho.
    assert (Hnew : forall e,
              In e (out (snd (I.draw_progress_bar_step w s))) ->
              is_progress e = false -> In e (out s)).
    { destruct Ho as [-> | (l & ->)]; [auto|]. intros e Hin He.
      apply in_app_or in Hin as [Hin | [<- | [<- | []]]];
        [exact Hin | discriminate | discriminate]. }
    destruct Hm as [-> | ->]; imm_fields;
      repeat split; eauto; discriminate.
Qed.

Lemma imm_session_sound (w : World) (limit : timedelta) (acts : list action) :
  imm_session_ok limit (imm_session w acts (I.init w limit)).
Proof.
  induction acts as [|a acts IH] using rev_ind.
  - unfold imm_session_ok. cbn.
    repeat split; try discriminate; try (intros ? []).
  - unfold imm_session. rewrite fold_left_app. cbn [fold_left].
    apply imm_perform_ok. exact IH.
Qed.

(** At every point of a session of dailytimespend.py, whatever the order of
    events and renderer passes and whatever the outside does (also when log
    writes or the audio launch fail), the number of alerts that were played
    equals [alert_count], and it is at most five. *)
Theorem alerts_played_are_counted
  (w : World) (limit : timedelta) (acts : list action) :
  let s := esc_session w acts (E.init w limit) in
  0 <= E.alert_count (mon s) <= 5
  /\ Z.of_nat (alerts_played (out s)) = E.alert_count (mon s).
Proof. apply (esc_session_sound w limit acts). Qed.

(** At every point of a session of dailytimespend.py, a stopped session has
    played all five alerts, and the hook has been cancelled only if the
    session is stopped. *)
Theorem stopped_after_the_last_alert
  (w : World) (limit : timedelta) (acts : list action) :
  let s := esc_session w acts (E.init w limit) in
  (E.running (mon s) = false -> E.alert_count (mon s) = 5)
  /\ (In HookCancel (out s) -> E.running (mon s) = false).
Proof.
  destruct (esc_session_sound w limit acts) as (_ & _ & Hr & Hc & _).
  split; assumption.
Qed.

Lemma stopped_after_the_last_alert_witness :
  let w := quiet_world 1700000000000000 50000 in
  let acts := [Hook KeyDown; Pass; Hook KeyDown; Hook MouseAllButtonsDown;
               Hook KeyDown; Pass; Hook KeyDown] in
  let s := esc_session w acts (E.init w 0) in
  E.running (mon s) = false /\ In HookCancel (out s)
  /\ E.alert_count (mon s) = 5.
Proof.
  intros w acts s.
  assert (Hr : E.running (mon s) = false) by (vm_compute; reflexivity).
  assert (Hc : In HookCancel (out s)).
  { assert (E : existsb (fun e => match e with HookCancel => true | _ => false end)
                        (out s) = true) by (vm_compute; reflexivity).
    destruct (proj1 (existsb_exists _ (out s)) E) as (x & Hin & Hx).
    destruct x; try discriminate Hx. exact Hin. }
  split; [exact Hr|]. split; [exact Hc|].
  exact (proj1 (stopped_after_the_last_alert w 0 acts) Hr).
Defined.

(** The configuration of a session never changes: the limit, the maximum of
    five alerts, the start time and the two-second log interval of
    dailytimespend.py, and the limit of dailytimespend1.py, are at every
    point those the constructor set. *)
Theorem configuration_is_constant
  (w : World) (limit : timedelta) (acts : list action) :
  (let m := mon (esc_session w acts (E.init w limit)) in
   E.time_limit m = limit /\ E.max_alerts m = 5
   /\ E.start_time m = clock w 0%nat /\ E.log_interval m = 2 * second)
  /\ I.time_limit (mon (imm_session w acts (I.init w limit))) = limit.
Proof.
  split.
  - apply (esc_session_sound w limit acts).
  - apply (imm_session_sound w limit acts).
Qed.

(** In both programs the activity flag is never set while [last_activity]
    is still unset. *)
Theorem activity_flag_needs_activity
  (w : World) (limit : timedelta) (acts : list action) :
  (let m := mon (esc_session w acts (E.init w limit)) in
   E.is_active m = true -> E.last_activity m <> None)
  /\ (let m := mon (imm_session w acts (I.init w limit)) in
      I.is_active m = true -> I.last_activity m <> None).
Proof.
  split.
  - apply (esc_session_sound w limit acts).
  - apply (imm_session_sound w limit acts).
Qed.

Lemma activity_flag_needs_activity_witness :
  let w := quiet_world 1700000000000000 50000 in
  let acts := [Pass; Hook MouseMovement] in
  E.is_active (mon (esc_session w acts (E.init w 60000000))) = true
  /\ E.last_activity (mon (esc_session w acts (E.init w 60000000))) <> None
  /\ I.is_active (mon (imm_session w acts (I.init w 60000000))) = true
  /\ I.last_activity (mon (imm_session w acts (I.init w 60000000))) <> None.
Proof.
  intros w acts.
  assert (H1 : E.is_active (mon (esc_session w acts (E.init w 60000000))) = true)
    by (vm_compute; reflexivity).
  assert (H2 : I.is_active (mon (imm_session w acts (I.init w 60000000))) = true)
    by (vm_compute; reflexivity).
  split; [exact H1|].
  split; [exact (proj1 (activity_flag_needs_activity w 60000000 acts) H1)|].
  split; [exact H2|].
  exact (proj2 (activity_flag_needs_activity w 60000000 acts) H2).
Defined.

(** In dailytimespend1.py, whatever the outside does, anything in the
    output other than the renderer's lines (an alert, a log record, the
    message, the cancellation of the hook) means that the session has been
    stopped: [running] is cleared before any of them is produced. *)
Theorem imm_output_means_stopped
  (w : World) (limit : timedelta) (acts : list action) (e : effect) :
  let s := imm_session w acts (I.init w limit) in
  In e (out s) -> is_progress e = false -> I.running (mon s) = false.
Proof.
  destruct (imm_session_sound w limit acts) as (_ & H & _). apply H.
Qed.

Lemma imm_output_means_stopped_witness :
  let w := read_only_world 1700000000000000 50000 in
  let s := imm_session w [Pass; Hook KeyDown] (I.init w 0) in
  In PlaySound (out s) /\ I.running (mon s) = false.
Proof.
  intros w s.
  assert (Hin : In PlaySound (out s)).
  { assert (E : existsb (fun e => match e with PlaySound => true | _ => false end)
                        (out s) = true) by (vm_compute; reflexivity).
    destruct (proj1 (existsb_exists _ (out s)) E) as (x & Hin & Hx).
    destruct x; try discriminate Hx. exact Hin. }
  split; [exact Hin|].
  exact (imm_output_means_stopped w 0 [Pass; Hook KeyDown] PlaySound
           Hin eq_refl).
Defined.

(** ** Below the limit *)

Lemma esc_quiet_run (w : World) (es : list hook_event) :
  forall s : Sys E.InputMonitor,
    E.breaches w es s = 0%nat ->
    E.alert_count (mon (E.deliver_all w es s)) = E.alert_count (mon s)
    /\ E.running (mon (E.deliver_all w es s)) = E.running (mon s)
    /\ exists l, out (E.deliver_all w es s) = out s ++ l
                 /\ alerts_played l = 0%nat /\ ~ In HookCancel l.
Proof.
  induction es as [|e es IH]; intros s Hb.
  - cbn. repeat split. exists []. rewrite app_nil_r. cbn. auto.
  - cbn [E.breaches] in Hb. cbn [E.deliver_all fold_left].
    change (fold_left _ es ?x) with (E.deliver_all w es x).
    destruct (esc_deliver_effects w e s) as (l1 & Hl1 & _ & _ & Hq).
    destruct (E.breach w e s); [discriminate|].
    destruct (Hq eq_refl) as (P1 & C1 & A1 & R1).
    destruct (IH (E.deliver w e s) Hb) as (A2 & R2 & l2 & Hl2 & P2 & C2).
    rewrite A2, R2, A1, R1. repeat split.
    exists (l1 ++ l2). rewrite Hl2, Hl1, app_assoc, alerts_played_app, P1, P2.
    repeat split. intros Hin. apply in_app_or in Hin. tauto.
Qed.

(** As long as no update has left the active time at or above the limit,
    no alert has been played, the session runs and the hook has not been
    cancelled, whatever the outside does; dailytimespend1.py has produced no
    output at all. *)
Theorem no_alert_below_the_limit
  (w : World) (limit : timedelta) (es : list hook_event) :
  (E.breaches w es (E.init w limit) = 0%nat ->
   let s := E.deliver_all w es (E.init w limit) in
   alerts_played (out s) = 0%nat /\ E.alert_count (mon s) = 0
   /\ E.running (mon s) = true /\ ~ In HookCancel (out s))
  /\ (I.breaches w es (I.init w limit) = 0%nat ->
      let s := I.deliver_all w es (I.init w limit) in
      out s = [] /\ I.running (mon s) = true).
Proof.
  split; intros Hb; cbv zeta.
  - destruct (esc_quiet_run w es _ Hb) as (A & R & l & Hl & P & C).
    rewrite A, R, Hl. cbn. auto.
  - destruct (imm_quiet_run w es _ Hb) as (_ & R & O).
    rewrite R, O. cbn. auto.
Qed.

Lemma no_alert_below_the_limit_witness :
  let w := read_only_world 1700000000000000 150000 in
  let es := [KeyDown; MouseMovement; KeyDown; KeyDown] in
  E.breaches w es (E.init w 60000000) = 0%nat
  /\ E.running (mon (E.deliver_all w es (E.init w 60000000))) = true
  /\ I.breaches w es (I.init w 60000000) = 0%nat
  /\ out (I.deliver_all w es (I.init w 60000000)) = [].
Proof.
  intros w es.
  assert (H1 : E.breaches w es (E.init w 60000000) = 0%nat)
    by (vm_compute; reflexivity).
  assert (H2 : I.breaches w es (I.init w 60000000) = 0%nat)
    by (vm_compute; reflexivity).
  split; [exact H1|].
  split; [exact (proj1 (proj2 (proj2
                  (proj1 (no_alert_below_the_limit w 60000000 es) H1))))|].
  split; [exact H2|].
  exact (proj1 (proj2 (no_alert_below_the_limit w 60000000 es) H2)).
Defined.

(** ** The accounting of the active time *)

Lemma imm_total_is_short_gaps (w : World) (es : list hook_event) :
  forall s : Sys I.InputMonitor,
    I.total_active_time (mon (I.deliver_all w es s))
    = I.total_active_time (mon s)
      + short_gaps (since (I.last_activity (mon s)) (I.stamps w es s)).
Proof.
  induction es as [|e es IH]; intros s.
  - cbn. destruct (I.last_activity (mon s)); cbn; lia.
  - cbn [I.deliver_all fold_left I.stamps].
    change (fold_left _ es ?x) with (I.deliver_all w es x).
    rewrite IH. pose proof (imm_deliver_account w e s) as H.
    destruct (I.update_time w e s) as [t|].
    + destruct H as (_ & L & _ & T & _).
      destruct (imm_accounted_fields t (mon s)) as (L1 & _ & T1 & _).
      rewrite L, T, L1, T1.
      destruct (I.last_activity (mon s)) as [last|]; cbn [since short_gaps];
        [|lia].
      destruct (t - last <=? second); lia.
    + now rewrite H.
Qed.

Lemma short_gaps_cons (a b : datetime) (ts : list datetime) :
  short_gaps (a :: b :: ts)
  = (if b - a <=? second then b - a else 0) + short_gaps (b :: ts).
Proof. reflexivity. Qed.

Lemma short_gaps_per_update (ts : list datetime) :
  short_gaps ts <= second * Z.of_nat (pred (List.length ts)).
Proof.
  induction ts as [|a ts IH]; [cbn; lia|].
  destruct ts as [|b ts]; [cbn; lia|].
  rewrite short_gaps_cons.
  change (pred (List.length (a :: b :: ts))) with (S (pred (List.length (b :: ts)))).
  rewrite Nat2Z.inj_succ.
  destruct (b - a <=? second) eqn:E; [apply Z.leb_le in E|]; unfold second in *; lia.
Qed.

Lemma short_gaps_elapsed (ts : list datetime) :
  non_decreasing ts = true ->
  short_gaps ts <= List.last ts 0 - List.hd 0 ts.
Proof.
  induction ts as [|a ts IH]; [cbn; lia|].
  destruct ts as [|b ts]; [cbn; lia|].
  change (non_decreasing (a :: b :: ts))
    with ((a <=? b) && non_decreasing (b :: ts)).
  intros H. apply andb_true_iff in H as [Hab H]. apply Z.leb_le in Hab.
  specialize (IH H). rewrite short_gaps_cons.
  change (List.last (a :: b :: ts) 0) with (List.last (b :: ts) 0).
  cbn [List.hd] in *.
  destruct (b - a <=? second); lia.
Qed.

Lemma esc_total_from_init (w : World) (limit : timedelta) (es : list hook_event) :
  E.total_active_time (mon (E.deliver_all w es (E.init w limit)))
  = short_gaps (E.stamps w es (E.init w limit)).
Proof.
  rewrite esc_total_is_short_gaps.
  cbn [E.init mon E.total_active_time E.last_activity since]. apply Z.add_0_l.
Qed.

Lemma imm_total_from_init (w : World) (limit : timedelta) (es : list hook_event) :
  I.total_active_time (mon (I.deliver_all w es (I.init w limit)))
  = short_gaps (I.stamps w es (I.init w limit)).
Proof.
  rewrite imm_total_is_short_gaps.
  cbn [I.init mon I.total_active_time I.last_activity since]. apply Z.add_0_l.
Qed.

(** In both programs, whatever the clock and the outside do, the active
    time after a run of events from the start of a session is exactly the
    sum of the gaps of at most one second between consecutive updates, so
    it is at most one second per update after the first. *)
Theorem active_time_is_the_short_gaps
  (w : World) (limit : timedelta) (es : list hook_event) :
  (let ts := E.stamps w es (E.init w limit) in
   let total := E.total_active_time (mon (E.deliver_all w es (E.init w limit))) in
   total = short_gaps ts
   /\ total <= second * Z.of_nat (pred (List.length ts)))
  /\ (let ts := I.stamps w es (I.init w limit) in
      let total := I.total_active_time (mon (I.deliver_all w es (I.init w limit))) in
      total = short_gaps ts
      /\ total <= second * Z.of_nat (pred (List.length ts))).
Proof.
  split; cbv zeta.
  - rewrite esc_total_from_init.
    split; [reflexivity | apply short_gaps_per_update].
  - rewrite imm_total_from_init.
    split; [reflexivity | apply short_gaps_per_update].
Qed.

(** In both programs, when the timestamps of the updates never step back,
    the active time is not negative and does not exceed the time elapsed
    between the first and the last update. *)
Theorem active_time_within_elapsed_time
  (w : World) (limit : timedelta) (es : list hook_event) :
  (let ts := E.stamps w es (E.init w limit) in
   non_decreasing ts = true ->
   0 <= E.total_active_time (mon (E.deliver_all w es (E.init w limit)))
     <= List.last ts 0 - List.hd 0 ts)
  /\ (let ts := I.stamps w es (I.init w limit) in
      non_decreasing ts = true ->
      0 <= I.total_active_time (mon (I.deliver_all w es (I.init w limit)))
        <= List.last ts 0 - List.hd 0 ts).
Proof.
  split; cbv zeta; intros Hs.
  - rewrite esc_total_from_init.
    split; [now apply short_gaps_nonneg | now apply short_gaps_elapsed].
  - rewrite imm_total_from_init.
    split; [now apply short_gaps_nonneg | now apply short_gaps_elapsed].
Qed.

Lemma active_time_within_elapsed_time_witness :
  let w := quiet_world 1700000000000000 150000 in
  let es := [KeyDown; MouseMovement; KeyDown; MouseAllButtonsDown] in
  non_decreasing (E.stamps w es (E.init w 60000000)) = true
  /\ 0 <= E.total_active_time (mon (E.deliver_all w es (E.init w 60000000)))
       <= List.last (E.stamps w es (E.init w 60000000)) 0
          - List.hd 0 (E.stamps w es (E.init w 60000000))
  /\ non_decreasing (I.stamps w es (I.init w 60000000)) = true
  /\ 0 <= I.total_active_time (mon (I.deliver_all w es (I.init w 60000000)))
       <= List.last (I.stamps w es (I.init w 60000000)) 0
          - List.hd 0 (I.stamps w es (I.init w 60000000)).
Proof.
  intros w es.
  assert (H1 : non_decreasing (E.stamps w es (E.init w 60000000)) = true)
    by (vm_compute; reflexivity).
  assert (H2 : non_decreasing (I.stamps w es (I.init w 60000000)) = true)
    by (vm_compute; reflexivity).
  split; [exact H1|].
  split; [exact (proj1 (active_time_within_elapsed_time w 60000000 es) H1)|].
  split; [exact H2|].
  exact (proj2 (active_time_within_elapsed_time w 60000000 es) H2).
Defined.

(** ** The renderer *)







(** ** Starting a session *)

Lemma esc_start_run (w : World) (s : Sys E.InputMonitor) :
  let m := mon s in
  let banner :=
    [Print (Starting (E.time_limit m)); Print LoggingTo; Print Legend;
     Print (AlertTimes (E.max_alerts m));
     Print (LogEvery ((E.log_interval m / second) mod 86400))] in
  mon (snd (E.start w s)) = m
  /\ match log_file w (appends s) with
     | Written =>
       fst (E.start w s) = Ret tt
       /\ exists r, log_event r = "Session Started"%string
                    /\ out (snd (E.start w s))
                       = out s ++ banner ++ [LogAppend r; ThreadStart; HookStart]
     | OpenFails | WriteFails =>
       fst (E.start w s) = Raise OSError
       /\ out (snd (E.start w s)) = out s ++ banner
     end.
Proof.
  cbv zeta. unfold E.start. run_monad. rewrite esc_log_activity_run.
  cbv zeta. cbn [mon ticks spawns appends out].
  destruct (log_file w (appends s)); cbn [fst snd mon out];
    (split; [reflexivity|]); rewrite <- ?app_assoc; cbn [app].
  - split; [reflexivity|]. eexists. split; [|reflexivity]. reflexivity.
  - split; reflexivity.
  - split; reflexivity.
Qed.

(** [start] of dailytimespend.py prints its five lines and then writes the
    "Session Started" record before anything else: when the log cannot be
    written the [OSError] leaves [start] with neither the renderer thread
    nor the hook started.  [start] of dailytimespend1.py writes no record
    and always starts both.  Neither changes the monitor. *)
Theorem start_writes_the_log_first (w : World) :
  (forall s : Sys E.InputMonitor,
     let r := E.start w s in
     mon (snd r) = mon s
     /\ match log_file w (appends s) with
        | Written =>
          fst r = Ret tt
          /\ exists rec front,
               log_event rec = "Session Started"%string
               /\ out (snd r)
                  = out s ++ front ++ [LogAppend rec; ThreadStart; HookStart]
               /\ List.length front = 5%nat
        | OpenFails | WriteFails =>
          fst r = Raise OSError
          /\ ~ In ThreadStart (emitted s (snd r))
          /\ ~ In HookStart (emitted s (snd r))
          /\ List.length (emitted s (snd r)) = 5%nat
        end)
  /\ (forall s : Sys I.InputMonitor,
        let r := I.start w s in
        fst r = Ret tt /\ mon (snd r) = mon s
        /\ exists front,
             out (snd r) = out s ++ front ++ [ThreadStart; HookStart]
             /\ List.length front = 3%nat).
Proof.
  split.
  - intros s. cbv zeta. destruct (esc_start_run w s) as (Hm & H).
    cbv zeta in H. split; [exact Hm|].
    destruct (log_file w (appends s)).
    + destruct H as (Hr & rec & Hev & Ho). split; [exact Hr|].
      eexists rec, _. split; [exact Hev|]. split; [exact Ho | reflexivity].
    + destruct H as (Hr & Ho). split; [exact Hr|].
      rewrite (emitted_app _ _ _ Ho). cbn.
      repeat split; intuition discriminate.
    + destruct H as (Hr & Ho). split; [exact Hr|].
      rewrite (emitted_app _ _ _ Ho). cbn.
      repeat split; intuition discriminate.
  - intros s. cbv zeta. unfold I.start. run_monad.
    split; [reflexivity|]. split; [reflexivity|].
    rewrite <- !app_assoc. cbn [app].
    exists [Print (Starting (I.time_limit (mon s))); Print LoggingTo; Print Legend].
    split; reflexivity.
Qed.

Lemma esc_main_run (w : World) (time : string) :
  match parse_time_limit time with
  | Ret limit =>
    match log_file w 0%nat with
    | Written =>
      fst (E.main w time) = Ret None /\ In HookStart (snd (E.main w time))
    | OpenFails | WriteFails =>
      fst (E.main w time) = Raise OSError
      /\ ~ In HookStart (snd (E.main w time))
    end
  | Raise _ => E.main w time = (Raise OverflowError, [])
  end
  /\ forall e, ~ In (Print (ErrorMsg e)) (snd (E.main w time)).
Proof.
  unfold E.main. pose proof (parse_time_limit_cases time) as Hp.
  destruct (parse_time_limit time) as [limit|e]; [|subst e; cbn; auto].
  destruct (esc_start_run w (E.init w limit)) as (_ & H). cbv zeta in H.
  change (appends (E.init w limit)) with 0%nat in H.
  change (out (E.init w limit)) with (@nil effect) in H.
  destruct (E.start w (E.init w limit)) as [r s'].
  cbn [fst snd app] in H.
  destruct (log_file w 0).
  - destruct H as (-> & rec & _ & ->). cbn.
    split; [split; [reflexivity | tauto]|]. intuition discriminate.
  - destruct H as (-> & ->). cbn.
    split; [split; [reflexivity|]|]; intuition discriminate.
  - destruct H as (-> & ->). cbn.
    split; [split; [reflexivity|]|]; intuition discriminate.
Qed.

Lemma imm_main_run (w : World) (time : string) :
  match parse_time_limit time with
  | Ret limit =>
    fst (I.main w time) = Ret None /\ In HookStart (snd (I.main w time))
  | Raise _ => I.main w time = (Raise OverflowError, [])
  end
  /\ forall e, ~ In (Print (ErrorMsg e)) (snd (I.main w time)).
Proof.
  unfold I.main. pose proof (parse_time_limit_cases time) as Hp.
  destruct (parse_time_limit time) as [limit|e]; [|subst e; cbn; auto].
  unfold I.start. run_monad. cbn.
  split; [split; [reflexivity | tauto]|]. intuition discriminate.
Qed.

(** For a time string of at most 4300 characters [main] never takes its
    [except ValueError] branch: it prints no error message and does not
    return 1.  It ends with status 0 exactly when the hook has been
    started; otherwise an exception leaves it uncaught (status 1): the
    [OverflowError] of a limit beyond 999999999 days, before anything is
    printed, or, in dailytimespend.py, the [OSError] of the first log
    write. *)
Theorem main_outcomes (w : World) (time : string) :
  (String.length time <= 4300)%nat ->
  (fst (E.main w time) <> Ret (Some 1)
   /\ (forall e, ~ In (Print (ErrorMsg e)) (snd (E.main w time)))
   /\ (exit_code (fst (E.main w time)) = 0
       <-> In HookStart (snd (E.main w time)))
   /\ (exit_code (fst (E.main w time)) <> 0 ->
       fst (E.main w time) = Raise OSError
       \/ E.main w time = (Raise OverflowError, [])))
  /\ (fst (I.main w time) <> Ret (Some 1)
      /\ (forall e, ~ In (Print (ErrorMsg e)) (snd (I.main w time)))
      /\ (exit_code (fst (I.main w time)) = 0
          <-> In HookStart (snd (I.main w time)))
      /\ (exit_code (fst (I.main w time)) <> 0 ->
          I.main w time = (Raise OverflowError, []))).
Proof.
  intros _. split.
  - destruct (esc_main_run w time) as (H & Herr).
    destruct (parse_time_limit time) as [limit|e].
    + destruct (log_file w 0); destruct H as (Hr & Hh); rewrite Hr; cbn;
        (split; [discriminate|]); (split; [exact Herr|]);
        (split; [split; intros H0; solve [exact Hh | reflexivity | lia | tauto]|]);
        intros H0; solve [lia | left; reflexivity].
    + rewrite H. cbn. split; [discriminate|].
      split; [intros e' []|]. split; [split; [lia | tauto]|]. auto.
  - destruct (imm_main_run w time) as (H & Herr).
    destruct (parse_time_limit time) as [limit|e].
    + destruct H as (Hr & Hh). rewrite Hr. cbn.
      split; [discriminate|]. split; [exact Herr|].
      split; [tauto|]. intros; lia.
    + rewrite H. cbn. split; [discriminate|].
      split; [intros e' []|]. split; [split; [lia | tauto]|]. auto.
Qed.

Lemma main_outcomes_witness :
  (String.length "abc" <= 4300)%nat
  /\ fst (E.main (read_only_world 1700000000000000 1000) "abc") <> Ret (Some 1)
  /\ fst (I.main (read_only_world 1700000000000000 1000) "99999999999999h")
     <> Ret (Some 1).
Proof.
  assert (H1 : (String.length "abc" <= 4300)%nat) by (cbn; lia).
  assert (H2 : (String.length "99999999999999h" <= 4300)%nat) by (cbn; lia).
  split; [exact H1|]. split.
  - exact (proj1 (proj1 (main_outcomes _ "abc" H1))).
  - exact (proj1 (proj2 (main_outcomes _ "99999999999999h" H2))).
Defined.

(** ** The periodic log record *)

(** [check_log_update] reads the clock once.  Less than [log_interval]
    after [last_log_time] it does nothing else.  Otherwise it writes one
    "Regular Update" record and moves [last_log_time] to its clock reading;
    when the log cannot be written the [OSError] leaves before
    [last_log_time] is moved, so the next update tries again. *)
Theorem regular_update_is_rate_limited (w : World) (s : Sys E.InputMonitor) :
  let m := mon s in
  let t := clock w (ticks s) in
  let r := E.check_log_update w s in
  (t - E.last_log_time m < E.log_interval m ->
   r = (Ret tt, mkSys m (S (ticks s)) (spawns s) (appends s) (out s)))
  /\ (E.log_interval m <= t - E.last_log_time m ->
      match log_file w (appends s) with
      | Written =>
        fst r = Ret tt
        /\ mon (snd r) = E.set_last_log_time t m
        /\ exists rec,
             log_event rec = "Regular Update"%string
             /\ out (snd r) = out s ++ [LogAppend rec]
      | OpenFails | WriteFails =>
        fst r = Raise OSError /\ mon (snd r) = m /\ out (snd r) = out s
      end).
Proof.
  cbv zeta. unfold E.check_log_update. run_monad. split; intros H.
  - apply Z.leb_gt in H. rewrite H. destruct s; reflexivity.
  - apply Z.leb_le in H. rewrite H. rewrite esc_log_activity_run.
    cbv zeta. cbn [mon ticks spawns appends out].
    destruct (log_file w (appends s)); cbn [fst snd mon out].
    + split; [reflexivity|]. split; [reflexivity|].
      eexists. split; [|reflexivity]. reflexivity.
    + repeat split.
    + repeat split.
Qed.

Lemma regular_update_is_rate_limited_witness :
  let w := read_only_world 1700000000000000 3000000 in
  let s := E.init w (3600 * second) in
  fst (E.check_log_update w s) = Raise OSError
  /\ mon (snd (E.check_log_update w s)) = mon s.
Proof.
  cbv zeta.
  pose proof (proj2 (regular_update_is_rate_limited
                       (read_only_world 1700000000000000 3000000)
                       (E.init (read_only_world 1700000000000000 3000000)
                               (3600 * second)))) as H.
  cbv zeta in H.
  assert (Hi : E.log_interval
                 (mon (E.init (read_only_world 1700000000000000 3000000)
                              (3600 * second)))
               <= clock (read_only_world 1700000000000000 3000000)
                    (ticks (E.init (read_only_world 1700000000000000 3000000)
                                   (3600 * second)))
                  - E.last_log_time
                      (mon (E.init (read_only_world 1700000000000000 3000000)
                                   (3600 * second)))).
  { vm_compute. discriminate. }
  specialize (H Hi).
  change (log_file (read_only_world 1700000000000000 3000000)
            (appends (E.init (read_only_world 1700000000000000 3000000)
                             (3600 * second))))
    with OpenFails in H.
  destruct H as (H1 & H2 & _). split; [exact H1 | exact H2].
Defined.
